(** * Portfolio drift checker: a shallow embedding of [main.py]

    The script loads holdings and target allocations from the process
    environment, fetches a price per ticker (a bulk download, then a
    per-ticker lookup), values the portfolio, derives the current allocation
    fractions, compares them with the targets and decides whether to send a
    report.

    Python values are modelled as the script uses them:
    - a [dict] is an association list in insertion order with unique keys;
    - an exception is a value of [exn], and code that may raise returns a
      [result];
    - the numbers of the pricing pipeline are [float]s: the definitions are
      written once over the arithmetic interface [Number] and run on Rocq's
      binary64 floats (instance [binary64]); the instance [exact] (rationals)
      gives the same definitions their rounding-free reading;
    - decoded JSON is a [pyval], with Python's dynamic checks written out. *)

From Stdlib Require Import List String Ascii Bool ZArith QArith Qabs Lia Lqa.
From Stdlib Require Import Floats.
Import ListNotations.

Set Warnings "-inexact-float,-register-all".

Local Open Scope string_scope.
Local Open Scope list_scope.

(** ** Exceptions and results *)

Inductive exn : Type :=
| ValueError (msg : string)
| JSONDecodeError (msg : string)
| AttributeError
| TypeError
| KeyError
| IndexError
| OverflowError
| ZeroDivisionError
| RequestException
| SMTPException
| RecursionError.

Definition result (A : Type) : Type := (exn + A)%type.

Abbreviation ok := (@inr exn _).
Abbreviation raise := (@inl exn _).

Definition rbind {A B : Type} (r : result A) (k : A -> result B) : result B :=
  match r with
  | inl e => inl e
  | inr a => k a
  end.

Declare Scope result_scope.
Delimit Scope result_scope with result.
Notation "x <- r ;; k" := (rbind r (fun x => k))
  (at level 61, r at next level, right associativity) : result_scope.

Fixpoint mapM {A B : Type} (f : A -> result B) (l : list A) : result (list B) :=
  match l with
  | [] => ok []
  | a :: l' =>
      (b <- f a ;;
       bs <- mapM f l' ;;
       ok (b :: bs))%result
  end.

(** ** Dictionaries

    Python's [dict] keeps insertion order and has one entry per key.
    Assigning to a key that is present keeps its position. *)

Section Dict.
Context {V : Type}.

Definition dict : Type := list (string * V).

(** [d.get(k)] *)
Fixpoint dict_get (d : dict) (k : string) : option V :=
  match d with
  | [] => None
  | (k', v) :: d' => if String.eqb k k' then Some v else dict_get d' k
  end.

(** [d.get(k, default)] *)
Definition dict_get_default (d : dict) (k : string) (default : V) : V :=
  match dict_get d k with
  | Some v => v
  | None => default
  end.

(** [k in d] *)
Definition dict_contains (k : string) (d : dict) : bool :=
  match dict_get d k with
  | Some _ => true
  | None => false
  end.

(** [d[k] = v] *)
Fixpoint dict_set (d : dict) (k : string) (v : V) : dict :=
  match d with
  | [] => [(k, v)]
  | (k', v') :: d' =>
      if String.eqb k k' then (k', v) :: d' else (k', v') :: dict_set d' k v
  end.

Definition keys (d : dict) : list string := map fst d.
Definition values (d : dict) : list V := map snd d.

(** [not d] *)
Definition dict_is_empty (d : dict) : bool :=
  match d with
  | [] => true
  | _ :: _ => false
  end.
End Dict.

Arguments dict V : clear implicits.

(** ** Arithmetic

    The operations the pipeline applies to its numbers. Prices and
    fractions are always [float]s; a share count or a target written as a
    JSON integer is converted to [float] by its first operation with one,
    and is taken here as that [float]. *)

Class Number (R : Type) : Type := {
  zero : R;
  hundred : R;
  add : R -> R -> R;
  sub : R -> R -> R;
  mul : R -> R -> R;
  div : R -> R -> R;
  absolute : R -> R;
  eqb : R -> R -> bool;
  ltb : R -> R -> bool
}.

(** Python's [float]: IEEE 754 binary64, round to nearest even. *)
#[export] Instance binary64 : Number float := {
  zero := 0%float;
  hundred := 100%float;
  add := PrimFloat.add;
  sub := PrimFloat.sub;
  mul := PrimFloat.mul;
  div := PrimFloat.div;
  absolute := PrimFloat.abs;
  eqb := PrimFloat.eqb;
  ltb := PrimFloat.ltb
}.

(** The same operations without rounding or overflow. *)
#[export] Instance exact : Number Q := {
  zero := 0%Q;
  hundred := 100%Q;
  add := Qplus;
  sub := Qminus;
  mul := Qmult;
  div := Qdiv;
  absolute := Qabs;
  eqb := Qeq_bool;
  ltb := fun x y => negb (Qle_bool y x)
}.

Section Pipeline.
Context {R : Type} {num : Number R}.

(** [sum(xs)]: a left fold that starts from [0]. *)
Definition py_sum (xs : list R) : R := fold_left add xs zero.

(** [x / y] raises [ZeroDivisionError] on a zero divisor. *)
Definition py_truediv (x y : R) : result R :=
  if eqb y zero then raise ZeroDivisionError else ok (div x y).

(** *** Portfolio calculator *)

Definition calculate_portfolio_value (holdings prices : dict R) : R * dict R :=
  let position_values :=
    fold_left
      (fun (position_values : dict R) '(ticker, shares) =>
         match dict_get prices ticker with
         | Some price => dict_set position_values ticker (mul shares price)
         | None => position_values
         end)
      holdings [] in
  let total_value := py_sum (values position_values) in
  (total_value, position_values).

Definition calculate_current_allocations
    (position_values : dict R) (total_value : R) : result (dict R) :=
  if eqb total_value zero then
    ok (map (fun '(ticker, _) => (ticker, zero)) position_values)
  else
    mapM (fun '(ticker, value) =>
            (fraction <- py_truediv value total_value ;;
             ok (ticker, fraction))%result)
         position_values.

(** *** Drift analyzer *)

Inductive direction : Type := OVER | UNDER.

Record alert : Type := {
  alert_ticker : string;
  alert_target : R;
  alert_current : R;
  alert_drift : R;
  alert_direction : direction
}.

(** One iteration of the loop of [check_drift]. *)
Definition check_drift_step (current_allocations : dict R) (threshold : R)
    (alerts : list alert) (item : string * R) : list alert :=
  let '(ticker, target) := item in
  let current := dict_get_default current_allocations ticker zero in
  let drift := sub current target in
  let drift_pct := mul drift hundred in
  if ltb threshold (absolute drift) then
    let direction := if ltb zero drift then OVER else UNDER in
    alerts ++ [ {| alert_ticker := ticker;
                   alert_target := mul target hundred;
                   alert_current := mul current hundred;
                   alert_drift := drift_pct;
                   alert_direction := direction |} ]
  else alerts.

Definition check_drift (current_allocations target_allocations : dict R)
    (threshold : R) : list alert :=
  fold_left (check_drift_step current_allocations threshold)
            target_allocations [].
End Pipeline.


(** ** Dynamically typed values

    What [json.loads] and [response.json()] return. *)

Inductive pyval : Type :=
| PNone
| PBool (b : bool)
| PInt (n : Z)
| PFloat (x : float)
| PStr (s : string)
| PList (items : list pyval)
| PDict (entries : list (string * pyval)).

(** [float(n)] for an [int]: the nearest binary64 value, ties to even;
    [OverflowError] when that value is not finite. *)
Definition float_of_int (n : Z) : result float :=
  let x := SF2Prim (binary_normalize prec emax n 0 false) in
  if PrimFloat.is_infinity x then raise OverflowError else ok x.

(** [bool(v)] *)
Definition py_truthy (v : pyval) : bool :=
  match v with
  | PNone => false
  | PBool b => b
  | PInt n => negb (n =? 0)%Z
  | PFloat x => negb (PrimFloat.eqb x 0%float)
  | PStr s => negb (String.eqb s "")
  | PList items => match items with [] => false | _ :: _ => true end
  | PDict entries => match entries with [] => false | _ :: _ => true end
  end.

(** [v.get(key, default)]: only a [dict] has the method. *)
Definition py_get (v : pyval) (key : string) (default : pyval) : result pyval :=
  match v with
  | PDict entries => ok (dict_get_default entries key default)
  | _ => raise AttributeError
  end.

(** [v[0]]. The keys of a decoded object are strings, so [0] is never one. *)
Definition py_getitem0 (v : pyval) : result pyval :=
  match v with
  | PList (first :: _) => ok first
  | PList [] => raise IndexError
  | PStr (String c _) => ok (PStr (String c EmptyString))
  | PStr EmptyString => raise IndexError
  | PDict _ => raise KeyError
  | _ => raise TypeError
  end.

(** [v.keys()] and [v.values()] *)
Definition py_keys (v : pyval) : result (list string) :=
  match v with
  | PDict entries => ok (keys entries)
  | _ => raise AttributeError
  end.

Definition py_values (v : pyval) : result (list pyval) :=
  match v with
  | PDict entries => ok (values entries)
  | _ => raise AttributeError
  end.

(** [a + b] on decoded values, as far as [sum] over numbers needs it:
    [bool] counts as [int], [int + float] converts the [int]. *)
Definition py_add (a b : pyval) : result pyval :=
  let as_number (v : pyval) : option (Z + float) :=
    match v with
    | PBool c => Some (inl (if c then 1 else 0)%Z)
    | PInt n => Some (inl n)
    | PFloat x => Some (inr x)
    | _ => None
    end in
  match as_number a, as_number b with
  | Some (inl m), Some (inl n) => ok (PInt (m + n))
  | Some (inl m), Some (inr y) =>
      (x <- float_of_int m ;; ok (PFloat (x + y)%float))%result
  | Some (inr x), Some (inl n) =>
      (y <- float_of_int n ;; ok (PFloat (x + y)%float))%result
  | Some (inr x), Some (inr y) => ok (PFloat (x + y)%float)
  | _, _ => raise TypeError
  end.

(** [sum(vs)], starting from the [int] zero. *)
Definition py_sum_values (vs : list pyval) : result pyval :=
  fold_left (fun acc v => (total <- acc ;; py_add total v)%result) vs (ok (PInt 0)).

(** ** Configuration loader *)

(** The process environment, [os.environ]. *)
Definition environment : Type := dict string.

Definition get_env_variable (environ : environment) (name : string)
    (required : bool) : result string :=
  let value := dict_get environ name in
  let falsy := match value with
               | None => true
               | Some s => String.eqb s ""
               end in
  if required && falsy then
    raise (ValueError ("Required environment variable '" ++ name ++ "' is not set"))
  else
    ok (match value with
        | Some s => if String.eqb s "" then "" else s
        | None => ""
        end).

(** A naive [datetime] is counted in microseconds; [timedelta.days] is the
    floor of the difference in days. *)
Definition datetime : Type := Z.
Definition microseconds_per_day : Z := 86400000000.
Definition timedelta_days (delta : Z) : Z := (delta / microseconds_per_day)%Z.

Definition WARMUP_PERIOD_DAYS : Z := 14.

Section Config.
(** [json.loads]: raises [JSONDecodeError] on text that is not JSON. It can
    raise other exceptions on text that is: a plain [ValueError] on an
    integer literal beyond the digit limit of [int], [RecursionError] on
    text nested too deep. No assumption is made on what it raises. *)
Variable json_loads : string -> result pyval.
(** [datetime.strptime(s, "%Y-%m-%d")]: raises [ValueError] when [s] does
    not match the format. *)
Variable strptime_ymd : string -> result datetime.

(** [JSONDecodeError] is the only exception the loaders catch (in Python it
    is a subclass of [ValueError]; the handlers name the subclass). *)
Definition get_portfolio_holdings (environ : environment) : result pyval :=
  (holdings_json <- get_env_variable environ "PORTFOLIO_HOLDINGS" true ;;
   match (holdings <- json_loads holdings_json ;;
          _ <- py_keys holdings ;;
          ok holdings) with
   | inl (JSONDecodeError e) =>
       raise (ValueError ("Invalid PORTFOLIO_HOLDINGS JSON: " ++ e))
   | outcome => outcome
   end)%result.

(** The sum check of [get_target_allocations]: [true] when the warning is
    logged. Formatting [total*100] with [.1f] converts an [int] to [float]. *)
Definition warn_unless_sums_to_one (total : pyval) : result bool :=
  match total with
  | PInt n =>
      if (n =? 1)%Z then ok false
      else (_ <- float_of_int (n * 100) ;; ok true)%result
  | PFloat x =>
      if PrimFloat.leb 0.99%float x && PrimFloat.leb x 1.01%float
      then ok false else ok true
  | _ => raise TypeError
  end.

Definition get_target_allocations (environ : environment) : result pyval :=
  (allocations_json <- get_env_variable environ "TARGET_ALLOCATIONS" true ;;
   match (allocations <- json_loads allocations_json ;;
          vs <- py_values allocations ;;
          total <- py_sum_values vs ;;
          _ <- warn_unless_sums_to_one total ;;
          ok allocations) with
   | inl (JSONDecodeError e) =>
       raise (ValueError ("Invalid TARGET_ALLOCATIONS JSON: " ++ e))
   | outcome => outcome
   end)%result.

Definition get_start_date (environ : environment) : result datetime :=
  (start_date_str <- get_env_variable environ "START_DATE" true ;;
   match strptime_ymd start_date_str with
   | inl (ValueError e) =>
       raise (ValueError ("Invalid START_DATE format (expected YYYY-MM-DD): " ++ e))
   | outcome => outcome
   end)%result.

Definition is_warmup_period (environ : environment) (now : datetime) : result bool :=
  (start_date <- get_start_date environ ;;
   let days_elapsed := timedelta_days (now - start_date) in
   let in_warmup := (days_elapsed <? WARMUP_PERIOD_DAYS)%Z in
   ok in_warmup)%result.
End Config.

(** The text [s] between double quotes. *)
Definition quoted (s : string) : string :=
  String (ascii_of_nat 34) (s ++ String (ascii_of_nat 34) EmptyString).

(** The text of the JSON object that maps the key A to the string x. *)
Definition object_of_strings_text : string :=
  "{" ++ quoted "A" ++ ": " ++ quoted "x" ++ "}".

(** A decoder for the examples: it knows the text of one array and of one
    object, as [json.loads] decodes them, and rejects every other text. *)
Definition example_decoder (text : string) : result pyval :=
  if String.eqb text "[1, 2]" then ok (PList [PInt 1; PInt 2])
  else if String.eqb text object_of_strings_text then
    ok (PDict [("A", PStr "x")])
  else raise (JSONDecodeError "Expecting value: line 1 column 1 (char 0)").

(** An integer literal of 4301 digits, one more than [int] converts. *)
Definition overlong_integer_text : string :=
  string_of_list_ascii (repeat "1"%char 4301).

Definition digit_limit_message : string :=
  "Exceeds the limit (4300 digits) for integer string conversion: value has 4301 digits; use sys.set_int_max_str_digits() to increase the limit".

(** [example_decoder] with the digit limit of [json.loads]: the overlong
    literal is JSON, and converting it raises a plain [ValueError]. *)
Definition limited_decoder (text : string) : result pyval :=
  if String.eqb text overlong_integer_text then
    raise (ValueError digit_limit_message)
  else example_decoder text.

(** ** Price fetcher *)

(** What [yf.download] hands back: it raises, or returns a frame. Of the
    frame only the block of closing prices is read: one column per ticker,
    one entry per row, [nan] where a value is missing. *)
Record frame : Type := { Close : dict (list float) }.

Inductive download : Type :=
| DownloadRaises
| Downloaded (data : frame).

(** [.empty] of the block: no column, or no row. *)
Definition block_empty (block : dict (list float)) : bool :=
  match block with
  | [] => true
  | (_, column) :: _ => match column with [] => true | _ :: _ => false end
  end.

(** [series.dropna()] *)
Definition dropna (series : list float) : list float :=
  filter (fun x => negb (PrimFloat.is_nan x)) series.

(** [series.iloc[-1]] of a series that is not empty. *)
Definition iloc_last (series : list float) : option float :=
  match rev series with
  | [] => None
  | x :: _ => Some x
  end.

(** The branch [len(tickers) == 1]: [data['Close'].iloc[-1]] is read without
    [dropna]. [float(...)] accepts the last row of a block of one column and
    raises on a wider one. *)
Definition bulk_single (ticker : string) (data : frame) (prices : dict float)
    : result (dict float) :=
  if block_empty (Close data) then ok prices
  else
    match Close data with
    | [(_, column)] =>
        match iloc_last column with
        | Some x => ok (dict_set prices ticker x)
        | None => raise IndexError
        end
    | _ => raise TypeError
    end.

(** One iteration of the loop of the other branch. *)
Definition bulk_multi_step (data : frame) (prices : dict float)
    (ticker : string) : dict float :=
  match dict_get (Close data) ticker with
  | Some column =>
      let close_prices := dropna column in
      match iloc_last close_prices with
      | Some x => dict_set prices ticker x
      | None => prices
      end
  | None => prices
  end.

(** The first [try] block of [fetch_current_prices]; an exception leaves the
    prices recorded so far. *)
Definition bulk_attempt (tickers : list string) (downloaded : download)
    : dict float :=
  let prices : dict float := [] in
  match downloaded with
  | DownloadRaises => prices
  | Downloaded data =>
      if block_empty (Close data) then prices
      else
        match tickers with
        | [ticker] =>
            match bulk_single ticker data prices with
            | inr prices' => prices'
            | inl _ => prices
            end
        | _ => fold_left (bulk_multi_step data) tickers prices
        end
  end.

(** What [requests.get] hands back: it raises, or returns a response with
    a status code and a body that [response.json()] decodes or rejects. *)
Inductive response : Type :=
| RequestRaises
| Response (status_code : Z) (json : result pyval).

Section Fetch.
(** [float(s)] for a [str]: [None] when [s] is not a number. *)
Variable float_of_str : string -> option float.
Variable yf_download : list string -> download.
(** The request for the chart of one ticker. *)
Variable requests_get : string -> response.

(** [float(v)] *)
Definition py_float (v : pyval) : result float :=
  match v with
  | PFloat x => ok x
  | PInt n => float_of_int n
  | PBool b => ok (if b then 1%float else 0%float)
  | PStr s =>
      match float_of_str s with
      | Some x => ok x
      | None =>
          raise (ValueError ("could not convert string to float: '" ++ s ++ "'"))
      end
  | _ => raise TypeError
  end.

(** The body of the second [try] block: the price to record, if any. *)
Definition direct_lookup (ticker : string) : result (option float) :=
  match requests_get ticker with
  | RequestRaises => raise RequestException
  | Response status_code json =>
      if (status_code =? 200)%Z then
        (data <- json ;;
         chart <- py_get data "chart" (PDict []) ;;
         result <- py_get chart "result" (PList []) ;;
         if py_truthy result then
           first <- py_getitem0 result ;;
           meta <- py_get first "meta" (PDict []) ;;
           regular <- py_get meta "regularMarketPrice" PNone ;;
           price <- (if py_truthy regular then ok regular
                     else py_get meta "previousClose" PNone) ;;
           if py_truthy price then
             x <- py_float price ;;
             ok (Some x)
           else ok None
         else ok None)%result
      else ok None
  end.

(** One iteration of the loop over [missing_tickers]; [except Exception]
    logs and moves on. *)
Definition fallback_step (prices : dict float) (ticker : string) : dict float :=
  match direct_lookup ticker with
  | inr (Some x) => dict_set prices ticker x
  | inr None => prices
  | inl _ => prices
  end.

Definition fetch_current_prices (tickers : list string) : dict float :=
  let prices := bulk_attempt tickers (yf_download tickers) in
  let missing_tickers :=
    filter (fun t => negb (dict_contains t prices)) tickers in
  fold_left fallback_step missing_tickers prices.
End Fetch.

(** ** The run

    The [try] block of the script, from the three configuration calls to the
    decision to send the report. The stages it calls are recorded in order in
    a trace, next to the value or the exception the block ends with. *)

Section Run.
Context {R : Type} {num : Number R}.

Record position : Type := {
  shares : R;
  price : R;
  value : R;
  target : R;
  current : R
}.

Record summary : Type := {
  total_value : R;
  positions : dict position
}.

Inductive event : Type :=
| FetchPrices (tickers : list string)
| CalculateValue
| CalculateAllocations
| CheckDrift
| SendEmail (alerts : list (@alert R)) (portfolio_summary : summary)
            (is_daily_summary : bool)
| NoEmailSent.

Definition program (A : Type) : Type := (list event * result A)%type.

Definition throw {A : Type} (e : exn) : program A := ([], raise e).
Definition emit (ev : event) : program unit := ([ev], ok tt).
Definition lift {A : Type} (r : result A) : program A := ([], r).

Definition pbind {A B : Type} (m : program A) (k : A -> program B) : program B :=
  match m with
  | (trace, inl e) => (trace, inl e)
  | (trace, inr a) => let '(trace', r) := k a in (trace ++ trace', r)
  end.

(** The summary handed to the notifier: one position per target ticker. *)
Definition build_portfolio_summary
    (holdings prices position_values target_allocations current_allocations : dict R)
    (total : R) : summary :=
  {| total_value := total;
     positions :=
       fold_left
         (fun (acc : dict position) '(ticker, target_fraction) =>
            dict_set acc ticker
              {| shares := dict_get_default holdings ticker zero;
                 price := dict_get_default prices ticker zero;
                 value := dict_get_default position_values ticker zero;
                 target := target_fraction;
                 current := dict_get_default current_allocations ticker zero |})
         target_allocations [] |}.

Definition main
    (loaded_holdings loaded_targets : result (dict R))
    (loaded_warmup : result bool)
    (DRIFT_THRESHOLD : R)
    (fetch : list string -> dict R)
    (send_email : list alert -> summary -> bool -> result unit)
    : program unit :=
  pbind (lift loaded_holdings) (fun holdings =>
  pbind (lift loaded_targets) (fun target_allocations =>
  pbind (lift loaded_warmup) (fun warmup =>
  pbind (emit (FetchPrices (keys holdings))) (fun _ =>
  let prices := fetch (keys holdings) in
  if dict_is_empty prices then
    throw (ValueError "Could not fetch any prices")
  else
    pbind (emit CalculateValue) (fun _ =>
    let '(total, position_values) := calculate_portfolio_value holdings prices in
    pbind (emit CalculateAllocations) (fun _ =>
    pbind (lift (calculate_current_allocations position_values total))
      (fun current_allocations =>
    pbind (emit CheckDrift) (fun _ =>
    let alerts := check_drift current_allocations target_allocations DRIFT_THRESHOLD in
    let portfolio_summary :=
      build_portfolio_summary holdings prices position_values
                              target_allocations current_allocations total in
    if warmup then
      pbind (emit (SendEmail alerts portfolio_summary true)) (fun _ =>
      lift (send_email alerts portfolio_summary true))
    else
      match alerts with
      | _ :: _ =>
          pbind (emit (SendEmail alerts portfolio_summary false)) (fun _ =>
          lift (send_email alerts portfolio_summary false))
      | [] => emit NoEmailSent
      end)))))))).
End Run.

(** ** The threshold

    [DRIFT_THRESHOLD = float(os.environ.get("DRIFT_THRESHOLD", "0.05"))], read
    once when the module is loaded. *)

Definition load_drift_threshold (float_of_str : string -> option float)
    (environ : environment) : result float :=
  py_float float_of_str
           (PStr (dict_get_default environ "DRIFT_THRESHOLD" "0.05")).

(** ** Notifier

    [send_email] builds the report and hands it to the mail server. The
    text of the report is the text of the script; the formatting of a number
    under a format specification, the date and the mail server are
    parameters. *)

Definition dq : string := String (ascii_of_nat 34) EmptyString.

(** The message as [sendmail] receives it: three headers and the HTML
    part. *)
Record message : Type := {
  Subject : string;
  From : string;
  To : string;
  html : string
}.

Section Notifier.
Local Open Scope string_scope.
Context {R : Type} {num : Number R}.
Variable DRIFT_THRESHOLD : R.
(** [format(x, spec)], as an f-string applies it. *)
Variable format : R -> string -> string.
(** [datetime.now().strftime('%Y-%m-%d')] *)
Variable date_str : string.
(** [server.login(user, password)] and then
    [server.sendmail(sender, recipient, msg)] over [SMTP_SSL]: they raise, or
    the message is handed over. *)
Variable smtp : string -> string -> string -> string -> message -> result unit.

Definition report_head (status_color status_header status_message : string)
    : string :=
  "
    <html>
    <body style=" ++ dq ++ "font-family: Arial, sans-serif;" ++ dq ++ ">
    <h2 style=" ++ dq ++ "color: " ++ status_color ++ ";" ++ dq ++ ">" ++ status_header ++ "</h2>
    <p>" ++ status_message ++ "</p>
    ".

Definition alerts_table_head : string :=
  "
    <h3>🔴 Drift Alerts</h3>
    <table border=" ++ dq ++ "1" ++ dq ++ " cellpadding=" ++ dq ++ "8" ++ dq ++ " cellspacing=" ++ dq ++ "0" ++ dq ++ " style=" ++ dq ++ "border-collapse: collapse;" ++ dq ++ ">
        <tr style=" ++ dq ++ "background-color: #f2f2f2;" ++ dq ++ ">
            <th>Fund</th>
            <th>Target</th>
            <th>Current</th>
            <th>Drift</th>
            <th>Action</th>
        </tr>
    ".

Definition alert_action (a : @alert R) : string :=
  match alert_direction a with
  | OVER => "Consider selling"
  | UNDER => "Consider buying"
  end.

Definition alert_color (a : @alert R) : string :=
  match alert_direction a with
  | OVER => "#ffcccc"
  | UNDER => "#ccffcc"
  end.

Definition alert_row (a : @alert R) : string :=
  let action := alert_action a in
  let color := alert_color a in
  "
        <tr style=" ++ dq ++ "background-color: " ++ color ++ ";" ++ dq ++ ">
            <td><strong>" ++ alert_ticker a ++ "</strong></td>
            <td>" ++ format (alert_target a) ".1f" ++ "%</td>
            <td>" ++ format (alert_current a) ".1f" ++ "%</td>
            <td>" ++ format (alert_drift a) "+.1f" ++ "%</td>
            <td>" ++ action ++ "</td>
        </tr>
        ".

Definition alerts_table_foot : string :=
  "
    </table>
    ".

Definition summary_table_head : string :=
  "
    <h3>📊 Full Portfolio Summary</h3>
    <table border=" ++ dq ++ "1" ++ dq ++ " cellpadding=" ++ dq ++ "8" ++ dq ++ " cellspacing=" ++ dq ++ "0" ++ dq ++ " style=" ++ dq ++ "border-collapse: collapse;" ++ dq ++ ">
        <tr style=" ++ dq ++ "background-color: #f2f2f2;" ++ dq ++ ">
            <th>Fund</th>
            <th>Shares</th>
            <th>Price</th>
            <th>Value</th>
            <th>Target %</th>
            <th>Current %</th>
            <th>Drift</th>
        </tr>
    ".

(** The colour of a row of the summary: by the drift of the position
    against the threshold of the module. *)
Definition position_row_color (data : @position R) : string :=
  let drift := sub (current data) (target data) in
  if ltb DRIFT_THRESHOLD (absolute drift) then
    if ltb zero drift then "#ffcccc" else "#ccffcc"
  else "#ffffff".

Definition position_row (ticker : string) (data : @position R) : string :=
  let drift := sub (current data) (target data) in
  let drift_pct := mul drift hundred in
  let drift_str := format drift_pct "+.1f" ++ "%" in
  let row_color := position_row_color data in
  "
        <tr style=" ++ dq ++ "background-color: " ++ row_color ++ ";" ++ dq ++ ">
            <td><strong>" ++ ticker ++ "</strong></td>
            <td>" ++ format (shares data) ".3f" ++ "</td>
            <td>$" ++ format (price data) ".2f" ++ "</td>
            <td>$" ++ format (value data) ",.2f" ++ "</td>
            <td>" ++ format (mul (target data) hundred) ".1f" ++ "%</td>
            <td>" ++ format (mul (current data) hundred) ".1f" ++ "%</td>
            <td>" ++ drift_str ++ "</td>
        </tr>
        ".

Definition report_foot (portfolio_summary : @summary R) : string :=
  "
    </table>
    
    <p><strong>Total Portfolio Value:</strong> $" ++ format (total_value portfolio_summary) ",.2f" ++ "</p>
    <p style=" ++ dq ++ "color: #666; font-size: 12px;" ++ dq ++ ">
        This email was generated automatically by your IRA Portfolio Drift Checker.
    </p>
    </body>
    </html>
    ".

(** The subject and the body, from the alerts and the summary. *)
Definition build_message (email_address recipient_email : string)
    (alerts : list (@alert R)) (portfolio_summary : @summary R) : message :=
  let has_drift := match alerts with [] => false | _ :: _ => true end in
  let subject :=
    if has_drift then
      "🚨 REBALANCE NEEDED - IRA Portfolio Drift Alert - " ++ date_str
    else "✅ ALL GOOD - IRA Portfolio Status - " ++ date_str in
  let status_header :=
    if has_drift then "Portfolio Drift Alert" else "Daily Portfolio Status" in
  let status_message :=
    if has_drift then
      "Your IRA portfolio has drifted beyond the "
      ++ format (mul DRIFT_THRESHOLD hundred) ".0f" ++ "% threshold."
    else
      "Your IRA portfolio is balanced within the "
      ++ format (mul DRIFT_THRESHOLD hundred) ".0f"
      ++ "% threshold. No action needed." in
  let status_color := if has_drift then "#ff6b6b" else "#51cf66" in
  let body := report_head status_color status_header status_message in
  let body :=
    if has_drift then
      body ++ alerts_table_head
      ++ String.concat "" (map alert_row alerts)
      ++ alerts_table_foot
    else body in
  let body := body ++ summary_table_head in
  let body :=
    body ++ String.concat ""
              (map (fun '(ticker, data) => position_row ticker data)
                   (positions portfolio_summary)) in
  let body := body ++ report_foot portfolio_summary in
  {| Subject := subject;
     From := email_address;
     To := recipient_email;
     html := body |}.

Definition send_email (environ : environment) (alerts : list (@alert R))
    (portfolio_summary : @summary R) (is_daily_summary : bool) : result unit :=
  (email_address <- get_env_variable environ "EMAIL_ADDRESS" true ;;
   email_password <- get_env_variable environ "EMAIL_PASSWORD" true ;;
   recipient <- get_env_variable environ "RECIPIENT_EMAIL" false ;;
   let recipient_email :=
     if String.eqb recipient "" then email_address else recipient in
   let msg := build_message email_address recipient_email alerts
                            portfolio_summary in
   smtp email_address email_password email_address recipient_email msg)%result.
End Notifier.

(** * Properties *)

(** ** Dictionaries *)

Section DictFacts.
Context {V : Type}.
Implicit Types (d : dict V) (k : string) (v : V).

Lemma dict_get_None_iff d k : dict_get d k = None <-> ~ In k (keys d).
Proof.
  induction d as [|[k' v'] d IH]; simpl.
  - tauto.
  - destruct (String.eqb_spec k k') as [->|Hne].
    + split; [discriminate | intros H; exfalso; apply H; now left].
    + rewrite IH. split; intros H; [intros [E|I]; [congruence | tauto] | tauto].
Qed.

Lemma dict_contains_true_iff d k : dict_contains k d = true <-> In k (keys d).
Proof.
  unfold dict_contains. destruct (dict_get d k) eqn:E.
  - split; [intros _ | reflexivity].
    destruct (in_dec string_dec k (keys d)) as [I|N]; [exact I|].
    apply dict_get_None_iff in N. congruence.
  - apply dict_get_None_iff in E. split; [discriminate | tauto].
Qed.

Lemma dict_set_fresh d k v : ~ In k (keys d) -> dict_set d k v = d ++ [(k, v)].
Proof.
  induction d as [|[k' v'] d IH]; simpl; intros H.
  - reflexivity.
  - destruct (String.eqb_spec k k') as [->|Hne].
    + exfalso. apply H. now left.
    + rewrite IH by tauto. reflexivity.
Qed.

Lemma dict_get_set_same d k v : dict_get (dict_set d k v) k = Some v.
Proof.
  induction d as [|[k' v'] d IH]; simpl.
  - now rewrite String.eqb_refl.
  - destruct (String.eqb_spec k k') as [->|Hne]; simpl.
    + now rewrite String.eqb_refl.
    + destruct (String.eqb_spec k k'); [contradiction | exact IH].
Qed.

Lemma dict_get_set_other d k k' v :
  k <> k' -> dict_get (dict_set d k v) k' = dict_get d k'.
Proof.
  intros Hne. induction d as [|[k0 v0] d IH]; simpl.
  - destruct (String.eqb_spec k' k); [congruence | reflexivity].
  - destruct (String.eqb_spec k k0) as [->|Hne0]; simpl.
    + destruct (String.eqb_spec k' k0); [congruence | reflexivity].
    + now rewrite IH.
Qed.

Lemma keys_dict_set_in d k v : In k (keys d) -> keys (dict_set d k v) = keys d.
Proof.
  induction d as [|[k' v'] d IH]; simpl; intros H.
  - contradiction.
  - destruct (String.eqb_spec k k') as [->|Hne]; simpl.
    + reflexivity.
    + f_equal. apply IH. destruct H; [congruence | assumption].
Qed.

Lemma keys_app (d1 d2 : dict V) : keys (d1 ++ d2) = keys d1 ++ keys d2.
Proof. apply map_app. Qed.

Lemma dict_get_app d1 d2 k :
  dict_get (d1 ++ d2) k =
  match dict_get d1 k with
  | Some v => Some v
  | None => dict_get d2 k
  end.
Proof.
  induction d1 as [|[k' v'] d1 IH]; simpl.
  - reflexivity.
  - destruct (String.eqb k k'); [reflexivity | exact IH].
Qed.
End DictFacts.

(** ** Portfolio calculator *)

Section CalculatorFacts.
Context {R : Type} {num : Number R}.

(** The entries the loop of [calculate_portfolio_value] adds, in the order of
    the holdings. *)
Lemma position_values_fold (prices holdings acc : dict R) :
  NoDup (keys acc ++ keys holdings) ->
  fold_left
    (fun (position_values : dict R) '(ticker, shares) =>
       match dict_get prices ticker with
       | Some price => dict_set position_values ticker (mul shares price)
       | None => position_values
       end)
    holdings acc
  = acc ++ flat_map (fun '(ticker, shares) =>
                       match dict_get prices ticker with
                       | Some price => [(ticker, mul shares price)]
                       | None => []
                       end) holdings.
Proof.
  revert acc. induction holdings as [|[t s] holdings IH]; intros acc Hnd; simpl.
  - now rewrite app_nil_r.
  - simpl in Hnd. destruct (dict_get prices t) as [p|] eqn:Ep.
    + rewrite dict_set_fresh.
      * rewrite IH.
        -- now rewrite <- app_assoc.
        -- rewrite keys_app. simpl. rewrite <- app_assoc. exact Hnd.
      * apply NoDup_remove_2 in Hnd. intros I. apply Hnd.
        apply in_or_app. now left.
    + apply IH. apply NoDup_remove_1 in Hnd. exact Hnd.
Qed.

Lemma priced_keys_subset (prices holdings : dict R) k :
  In k (keys (flat_map (fun '(ticker, shares) =>
                          match dict_get prices ticker with
                          | Some price => [(ticker, mul shares price)]
                          | None => []
                          end) holdings)) ->
  In k (keys holdings).
Proof.
  induction holdings as [|[t s] holdings IH]; simpl.
  - tauto.
  - destruct (dict_get prices t); simpl; intuition.
Qed.

Lemma priced_lookup (prices holdings : dict R) k :
  NoDup (keys holdings) ->
  dict_get (flat_map (fun '(ticker, shares) =>
                        match dict_get prices ticker with
                        | Some price => [(ticker, mul shares price)]
                        | None => []
                        end) holdings) k
  = match dict_get holdings k, dict_get prices k with
    | Some shares, Some price => Some (mul shares price)
    | _, _ => None
    end.
Proof.
  induction holdings as [|[t s] holdings IH]; intros Hnd; simpl.
  - reflexivity.
  - inversion Hnd as [|? ? Hnotin Hnd']; subst.
    destruct (String.eqb_spec k t) as [->|Hne].
    + destruct (dict_get prices t) as [p|] eqn:Ep; simpl.
      * now rewrite String.eqb_refl.
      * apply dict_get_None_iff. intros I. apply Hnotin.
        eapply priced_keys_subset; eauto.
    + destruct (dict_get prices t) as [p|] eqn:Ep; simpl.
      * destruct (String.eqb_spec k t); [contradiction | apply IH; exact Hnd'].
      * apply IH; exact Hnd'.
Qed.

Lemma priced_values (prices holdings : dict R) :
  values (flat_map (fun '(ticker, shares) =>
                      match dict_get prices ticker with
                      | Some price => [(ticker, mul shares price)]
                      | None => []
                      end) holdings)
  = map (fun '(ticker, shares) => mul shares (dict_get_default prices ticker zero))
        (filter (fun '(ticker, _) => dict_contains ticker prices) holdings).
Proof.
  induction holdings as [|[t s] holdings IH]; simpl.
  - reflexivity.
  - unfold dict_contains, dict_get_default, values in *.
    destruct (dict_get prices t) as [p|] eqn:Ep; simpl; rewrite ?Ep, IH; reflexivity.
Qed.

(** C2. [calculate_portfolio_value] returns a value map that holds exactly
    the tickers present in both the holdings and the prices, each mapped to
    shares times price, and a total that is the sum of those values in the
    order of the holdings; a ticker held without a price is absent from the
    value map and from the sum. *)
Theorem calculate_portfolio_value_spec (holdings prices : dict R) :
  NoDup (keys holdings) ->
  let '(total, position_values) := calculate_portfolio_value holdings prices in
  (forall ticker,
      dict_get position_values ticker =
      match dict_get holdings ticker, dict_get prices ticker with
      | Some shares, Some price => Some (mul shares price)
      | _, _ => None
      end)
  /\ total =
     py_sum (map (fun '(ticker, shares) =>
                    mul shares (dict_get_default prices ticker zero))
                 (filter (fun '(ticker, _) => dict_contains ticker prices)
                         holdings))
  /\ (forall ticker,
         dict_contains ticker holdings = true ->
         dict_contains ticker prices = false ->
         dict_contains ticker position_values = false).
Proof.
  intros Hnd. unfold calculate_portfolio_value.
  rewrite position_values_fold by exact Hnd. simpl.
  split; [|split].
  - intros k. now apply priced_lookup.
  - now rewrite priced_values.
  - intros k _ Hp. unfold dict_contains in *.
    rewrite priced_lookup by exact Hnd.
    destruct (dict_get holdings k); [|reflexivity].
    destruct (dict_get prices k); [discriminate | reflexivity].
Qed.
End CalculatorFacts.

(** ** Drift analyzer *)

Section DriftFacts.
Context {R : Type} {num : Number R}.

(** The loop of [check_drift] keeps the targets that exceed the threshold,
    in their order. *)
Lemma check_drift_fold (current_allocations : dict R) (threshold : R)
    (targets : dict R) (acc : list alert) :
  fold_left (check_drift_step current_allocations threshold) targets acc
  = acc ++ check_drift current_allocations targets threshold.
Proof.
  unfold check_drift. revert acc.
  induction targets as [|[t g] targets IH]; intros acc; cbn [fold_left].
  - now rewrite app_nil_r.
  - rewrite (IH (check_drift_step _ _ acc _)).
    rewrite (IH (check_drift_step _ _ [] _)).
    unfold check_drift_step.
    destruct (ltb threshold _); simpl.
    + now rewrite <- app_assoc.
    + reflexivity.
Qed.

Lemma check_drift_cons (current_allocations : dict R) (threshold : R)
    (ticker : string) (target : R) (targets : dict R) :
  check_drift current_allocations ((ticker, target) :: targets) threshold
  = check_drift_step current_allocations threshold [] (ticker, target)
    ++ check_drift current_allocations targets threshold.
Proof.
  unfold check_drift at 1. simpl. apply check_drift_fold.
Qed.

Lemma check_drift_tickers (current_allocations targets : dict R) (threshold : R) :
  map alert_ticker (check_drift current_allocations targets threshold)
  = map fst
      (filter (fun '(ticker, target) =>
                 ltb threshold
                     (absolute (sub (dict_get_default current_allocations ticker zero)
                                    target)))
              targets).
Proof.
  induction targets as [|[t g] targets IH].
  - reflexivity.
  - rewrite check_drift_cons, map_app, IH. simpl.
    destruct (ltb threshold _); reflexivity.
Qed.

Lemma check_drift_alert_inv (current_allocations targets : dict R)
    (threshold : R) (a : alert) :
  In a (check_drift current_allocations targets threshold) ->
  exists target,
    In (alert_ticker a, target) targets
    /\ ltb threshold
           (absolute (sub (dict_get_default current_allocations (alert_ticker a) zero)
                          target)) = true
    /\ alert_direction a =
       (if ltb zero (sub (dict_get_default current_allocations (alert_ticker a) zero)
                         target)
        then OVER else UNDER).
Proof.
  induction targets as [|[t g] targets IH].
  - intros [].
  - rewrite check_drift_cons. intros H. apply in_app_or in H as [H|H].
    + simpl in H.
      destruct (ltb threshold _) eqn:E; [|contradiction].
      destruct H as [<-|[]]. simpl. exists g. split; [now left | now split].
    + destruct (IH H) as (g' & I & rest). exists g'. split; [now right | exact rest].
Qed.

Lemma in_dict_get (V : Type) (d : dict V) k v :
  NoDup (keys d) -> In (k, v) d -> dict_get d k = Some v.
Proof.
  induction d as [|[k' v'] d IH]; simpl; intros Hnd H.
  - contradiction.
  - inversion Hnd as [|? ? Hnotin Hnd']; subst.
    destruct H as [E|H].
    + inversion E; subst. now rewrite String.eqb_refl.
    + destruct (String.eqb_spec k k') as [->|Hne].
      * exfalso. apply Hnotin. change (In (fst (k', v)) (map fst d)).
        now apply in_map.
      * now apply IH.
Qed.

Lemma dict_get_in (V : Type) (d : dict V) k v :
  dict_get d k = Some v -> In (k, v) d.
Proof.
  induction d as [|[k' v'] d IH]; simpl.
  - discriminate.
  - destruct (String.eqb_spec k k') as [->|Hne].
    + intros E. inversion E. now left.
    + intros E. right. now apply IH.
Qed.

(** C1. [check_drift] emits an alert for a target ticker exactly when
    the absolute value of [current - target] is strictly greater than the
    threshold, [current] being [0.0] for a ticker absent from the current
    allocations; the direction of an alert is [OVER] when [current - target]
    is positive and [UNDER] otherwise; the alerts follow the order of the
    target allocations. *)
Theorem check_drift_spec (current_allocations target_allocations : dict R)
    (threshold : R) :
  NoDup (keys target_allocations) ->
  let alerts := check_drift current_allocations target_allocations threshold in
  let drift ticker target :=
    sub (dict_get_default current_allocations ticker zero) target in
  (forall ticker target,
      dict_get target_allocations ticker = Some target ->
      ((exists a, In a alerts /\ alert_ticker a = ticker)
       <-> ltb threshold (absolute (drift ticker target)) = true))
  /\ (forall a, In a alerts ->
        exists target,
          dict_get target_allocations (alert_ticker a) = Some target
          /\ alert_direction a =
             (if ltb zero (drift (alert_ticker a) target) then OVER else UNDER))
  /\ map alert_ticker alerts
     = map fst (filter (fun '(ticker, target) =>
                          ltb threshold (absolute (drift ticker target)))
                       target_allocations).
Proof.
  intros Hnd alerts drift. split; [|split].
  - intros ticker target Hget. split.
    + intros (a & Ha & <-).
      destruct (check_drift_alert_inv _ _ _ _ Ha) as (g & I & E & _).
      apply in_dict_get in I; [|exact Hnd].
      rewrite Hget in I. inversion I; subst. exact E.
    + intros E.
      assert (I : In ticker (map alert_ticker alerts)).
      { unfold alerts. rewrite check_drift_tickers.
        change ticker with (fst (ticker, target)). apply in_map.
        apply filter_In. split; [now apply dict_get_in | exact E]. }
      apply in_map_iff in I as (a & Ea & Ia). now exists a.
  - intros a Ha.
    destruct (check_drift_alert_inv _ _ _ _ Ha) as (g & I & _ & D).
    exists g. split; [now apply in_dict_get | exact D].
  - apply check_drift_tickers.
Qed.
End DriftFacts.

(** ** Current allocations *)

Section AllocationFacts.
Context {R : Type} {num : Number R}.

Lemma mapM_fractions (position_values : dict R) (total : R) :
  eqb total zero = false ->
  mapM (fun '(ticker, value) =>
          (fraction <- py_truediv value total ;; ok (ticker, fraction))%result)
       position_values
  = ok (map (fun '(ticker, value) => (ticker, div value total)) position_values).
Proof.
  intros Hz. induction position_values as [|[t v] pv IH]; simpl.
  - reflexivity.
  - unfold py_truediv at 1. rewrite Hz. simpl. rewrite IH. reflexivity.
Qed.

(** The guard on a zero total makes the function total: it returns one
    fraction per entry of the value map and never divides by zero. *)
Lemma calculate_current_allocations_total (position_values : dict R) (total : R) :
  calculate_current_allocations position_values total
  = ok (map (fun '(ticker, value) =>
               (ticker, if eqb total zero then zero else div value total))
            position_values).
Proof.
  unfold calculate_current_allocations.
  destruct (eqb total zero) eqn:Hz.
  - reflexivity.
  - rewrite mapM_fractions by exact Hz. reflexivity.
Qed.
End AllocationFacts.

(** Sums of rationals, up to [Qeq]. *)
Lemma fold_left_Qplus_compat (xs : list Q) (a b : Q) :
  (a == b)%Q -> (fold_left Qplus xs a == fold_left Qplus xs b)%Q.
Proof.
  revert a b. induction xs as [|x xs IH]; intros a b E; simpl.
  - exact E.
  - apply IH. now rewrite E.
Qed.

Lemma fold_left_Qplus_div (xs : list Q) (a t : Q) :
  (fold_left Qplus (map (fun x => x / t) xs) (a / t)
   == fold_left Qplus xs a / t)%Q.
Proof.
  revert a. induction xs as [|x xs IH]; intros a; simpl.
  - reflexivity.
  - rewrite <- IH. apply fold_left_Qplus_compat.
    unfold Qdiv. now rewrite Qmult_plus_distr_l.
Qed.

Lemma exact_fractions_sum (position_values : dict Q) (total : Q) :
  (total == py_sum (values position_values))%Q ->
  ~ (total == 0)%Q ->
  (py_sum (values (map (fun '(ticker, value) => (ticker, (value / total)%Q))
                       position_values)) == 1)%Q.
Proof.
  intros Ht Hnz. unfold py_sum, values. simpl.
  rewrite map_map.
  rewrite (map_ext _ (fun tv => (snd tv / total)%Q)) by now intros [t v].
  rewrite <- (map_map snd (fun x => (x / total)%Q)).
  rewrite (fold_left_Qplus_compat _ 0 (0 / total)%Q)
    by (unfold Qdiv; now rewrite Qmult_0_l).
  rewrite fold_left_Qplus_div.
  unfold py_sum, values in Ht. simpl in Ht. rewrite <- Ht.
  unfold Qdiv. now apply Qmult_inv_r.
Qed.

(** C3, as amended. [calculate_current_allocations] never raises: it returns
    one fraction per ticker of the value map, [0.0] when the total equals
    zero and [value / total] otherwise. In exact arithmetic the fractions
    sum to 1 whenever the total is the sum of the value map and is not zero.
    (In binary64 the sum may miss 1.0: see
    [allocations_sum_misses_one_on_overflow].) *)
Theorem calculate_current_allocations_spec :
  (forall (R : Type) (num : Number R) (position_values : dict R) (total : R),
      exists allocations,
        calculate_current_allocations position_values total = ok allocations
        /\ keys allocations = keys position_values
        /\ forall ticker,
             dict_get allocations ticker =
             match dict_get position_values ticker with
             | Some value =>
                 Some (if eqb total zero then zero else div value total)
             | None => None
             end)
  /\ (forall (position_values : dict Q) (total : Q),
        (total == py_sum (values position_values))%Q ->
        eqb total zero = false ->
        exists allocations,
          calculate_current_allocations position_values total = ok allocations
          /\ (py_sum (values allocations) == 1)%Q).
Proof.
  split.
  - intros R num pv total. eexists. split; [apply calculate_current_allocations_total|].
    split.
    + unfold keys. rewrite map_map. apply map_ext. now intros [t v].
    + intros k. induction pv as [|[t v] pv IH]; simpl.
      * reflexivity.
      * destruct (String.eqb k t); [reflexivity | exact IH].
  - intros pv total Ht Hz. eexists.
    split; [apply calculate_current_allocations_total|].
    rewrite Hz.
    apply exact_fractions_sum; [exact Ht|].
    intros E. apply Qeq_bool_iff in E. simpl in Hz. congruence.
Qed.

(** *** The pipeline on binary64 values *)

(** Holdings of 100 shares at a price of 10 are worth 1000, all of it in
    the one ticker. *)
Example value_of_one_holding :
  calculate_portfolio_value [("A", 100%float)] [("A", 10%float)]
  = (1000%float, [("A", 1000%float)])
  /\ calculate_current_allocations [("A", 1000%float)] 1000%float
     = ok [("A", 1%float)].
Proof. split; reflexivity. Qed.

(** A drift of ten points on either side of the targets raises both alerts,
    in the order of the targets. *)
Example drift_alerts_both_sides :
  map (fun a => (alert_ticker a, alert_direction a))
      (check_drift [("A", 0.6%float); ("B", 0.4%float)]
                   [("A", 0.5%float); ("B", 0.5%float)] 0.05%float)
  = [("A", OVER); ("B", UNDER)].
Proof. reflexivity. Qed.

Example drift_within_threshold :
  check_drift [("A", 0.52%float); ("B", 0.48%float)]
              [("A", 0.5%float); ("B", 0.5%float)] 0.05%float
  = [].
Proof. reflexivity. Qed.

(** A drift equal to the threshold raises no alert. *)
Example drift_at_threshold :
  check_drift [("A", 0.75%float)] [("A", 0.5%float)] 0.25%float = [].
Proof. reflexivity. Qed.

(** C2 on holdings of A and B with prices for A and C. *)
Lemma calculate_portfolio_value_spec_witness :
  let '(total, position_values) :=
    calculate_portfolio_value
      [("A", 100%float); ("B", 7%float)] [("A", 10%float); ("C", 3%float)] in
  (forall ticker,
      dict_get position_values ticker =
      match dict_get [("A", 100%float); ("B", 7%float)] ticker,
            dict_get [("A", 10%float); ("C", 3%float)] ticker with
      | Some shares, Some price => Some (mul shares price)
      | _, _ => None
      end)
  /\ total =
     py_sum (map (fun '(ticker, shares) =>
                    mul shares
                        (dict_get_default [("A", 10%float); ("C", 3%float)]
                                          ticker zero))
                 (filter (fun '(ticker, _) =>
                            dict_contains ticker [("A", 10%float); ("C", 3%float)])
                         [("A", 100%float); ("B", 7%float)]))
  /\ (forall ticker,
         dict_contains ticker [("A", 100%float); ("B", 7%float)] = true ->
         dict_contains ticker [("A", 10%float); ("C", 3%float)] = false ->
         dict_contains ticker position_values = false).
Proof.
  apply (calculate_portfolio_value_spec
           [("A", 100%float); ("B", 7%float)] [("A", 10%float); ("C", 3%float)]).
  simpl. repeat constructor; simpl; intuition discriminate.
Defined.

(** C1 on two targets of one half each, with A held at 0.6 and B absent
    from the current allocations. *)
Lemma check_drift_spec_witness :
  NoDup (keys [("A", 0.5%float); ("B", 0.5%float)])
  /\ map alert_ticker
         (check_drift [("A", 0.6%float)] [("A", 0.5%float); ("B", 0.5%float)]
                      0.05%float)
     = ["A"; "B"].
Proof.
  assert (Hnd : NoDup (keys [("A", 0.5%float); ("B", 0.5%float)])).
  { simpl. repeat constructor; simpl; intuition discriminate. }
  split; [exact Hnd|].
  destruct (check_drift_spec [("A", 0.6%float)]
                             [("A", 0.5%float); ("B", 0.5%float)]
                             0.05%float Hnd) as (_ & _ & Horder).
  rewrite Horder. reflexivity.
Defined.

(** C3, counterexample. Two positions of 1e308 each are valued at a total
    that overflows to infinity: the total is positive, every fraction is
    [0.0], and their sum is 0.0, not within 1e-9 of 1.0. *)
Lemma allocations_sum_misses_one_on_overflow :
  let '(total, position_values) :=
    calculate_portfolio_value
      [("A", 1e308%float); ("B", 1e308%float)]
      [("A", 1%float); ("B", 1%float)] in
  position_values = [("A", 1e308%float); ("B", 1e308%float)]
  /\ total = infinity
  /\ ltb zero total = true
  /\ match calculate_current_allocations position_values total with
     | inr allocations =>
         allocations = [("A", 0%float); ("B", 0%float)]
         /\ py_sum (values allocations) = 0%float
         /\ PrimFloat.leb (abs (py_sum (values allocations) - 1)) 1e-9 = false
     | inl _ => False
     end.
Proof. repeat split; reflexivity. Qed.

(** ** The run *)

Section RunFacts.
Context {R : Type} {num : Number R}.
Variable DRIFT_THRESHOLD : R.
Variable fetch : list string -> dict R.
Variable send_email : list (@alert R) -> @summary R -> bool -> result unit.

(** The run, once the configuration is loaded, written out. *)
Lemma main_unfold (holdings target_allocations : dict R) (warmup : bool) :
  exists total position_values current_allocations,
    calculate_portfolio_value holdings (fetch (keys holdings))
    = (total, position_values)
    /\ calculate_current_allocations position_values total
       = ok current_allocations
    /\ main (ok holdings) (ok target_allocations) (ok warmup)
            DRIFT_THRESHOLD fetch send_email
       = let prices := fetch (keys holdings) in
         let alerts :=
           check_drift current_allocations target_allocations DRIFT_THRESHOLD in
         let portfolio_summary :=
           build_portfolio_summary holdings prices position_values
                                   target_allocations current_allocations total in
         if dict_is_empty prices then
           ([FetchPrices (keys holdings)],
            raise (ValueError "Could not fetch any prices"))
         else if warmup then
           ([FetchPrices (keys holdings); CalculateValue; CalculateAllocations;
             CheckDrift; SendEmail alerts portfolio_summary true],
            send_email alerts portfolio_summary true)
         else
           match alerts with
           | _ :: _ =>
               ([FetchPrices (keys holdings); CalculateValue;
                 CalculateAllocations; CheckDrift;
                 SendEmail alerts portfolio_summary false],
                send_email alerts portfolio_summary false)
           | [] =>
               ([FetchPrices (keys holdings); CalculateValue;
                 CalculateAllocations; CheckDrift; NoEmailSent], ok tt)
           end.
Proof.
  destruct (calculate_portfolio_value holdings (fetch (keys holdings)))
    as [total pv] eqn:Hcalc.
  exists total, pv. eexists.
  split; [reflexivity|].
  split; [apply calculate_current_allocations_total|].
  unfold main.
  cbn -[calculate_portfolio_value calculate_current_allocations check_drift
        build_portfolio_summary].
  destruct (dict_is_empty (fetch (keys holdings))); [reflexivity|].
  rewrite Hcalc.
  cbn -[calculate_portfolio_value calculate_current_allocations check_drift
        build_portfolio_summary].
  rewrite calculate_current_allocations_total.
  cbn -[calculate_portfolio_value calculate_current_allocations check_drift
        build_portfolio_summary].
  destruct warmup.
  - cbn -[check_drift build_portfolio_summary].
    now destruct (send_email _ _ true).
  - destruct (check_drift _ target_allocations DRIFT_THRESHOLD) eqn:Halerts.
    + reflexivity.
    + cbn -[check_drift build_portfolio_summary].
      now destruct (send_email _ _ false).
Qed.

(** C4. When the fetch stage returns an empty price map the run ends with
    the fatal [ValueError] right after the fetch: the trace holds no call of
    the calculator, the analyzer or the notifier. When the price map is not
    empty the run goes on to the calculator. *)
Theorem no_prices_is_fatal (holdings target_allocations : dict R) (warmup : bool) :
  let run := main (ok holdings) (ok target_allocations) (ok warmup)
                  DRIFT_THRESHOLD fetch send_email in
  (fetch (keys holdings) = [] ->
   run = ([FetchPrices (keys holdings)],
          raise (ValueError "Could not fetch any prices")))
  /\ (fetch (keys holdings) <> [] ->
      exists trace outcome,
        run = (FetchPrices (keys holdings) :: CalculateValue :: trace, outcome)).
Proof.
  intros run. subst run.
  destruct (main_unfold holdings target_allocations warmup)
    as (total & pv & allocs & _ & _ & ->).
  cbv zeta. split.
  - intros ->. reflexivity.
  - intros Hne. destruct (fetch (keys holdings)) as [|p prices] eqn:E;
      [contradiction|].
    cbn [dict_is_empty].
    destruct warmup; [eauto|].
    destruct (check_drift allocs target_allocations DRIFT_THRESHOLD); eauto.
Qed.

End RunFacts.

(** ** Warm-up *)

Lemma timedelta_days_lt (delta n : Z) :
  (timedelta_days delta < n <-> delta < n * microseconds_per_day)%Z.
Proof.
  unfold timedelta_days, microseconds_per_day.
  pose proof (Z.div_mod delta 86400000000 ltac:(lia)) as Hdm.
  pose proof (Z.mod_pos_bound delta 86400000000 ltac:(lia)) as Hb.
  split; intros H; nia.
Qed.


(** Three days after the start date the run is in warm-up; fourteen days
    after it, to the microsecond, it no longer is. *)
Example warmup_three_days_in :
  let strptime_ymd := fun _ : string => ok 0%Z : result datetime in
  let environ := [("START_DATE", "2026-02-13")] in
  is_warmup_period strptime_ymd environ (3 * microseconds_per_day)%Z = ok true
  /\ is_warmup_period strptime_ymd environ (14 * microseconds_per_day - 1)%Z
     = ok true
  /\ is_warmup_period strptime_ymd environ (14 * microseconds_per_day)%Z
     = ok false
  /\ is_warmup_period strptime_ymd environ (- 1)%Z = ok true.
Proof. repeat split; reflexivity. Qed.

(** ** Portfolio summary *)

Lemma fold_dict_set_fresh (A V : Type) (f : string -> A -> V)
    (items : dict A) (acc : dict V) :
  NoDup (keys acc ++ keys items) ->
  fold_left (fun (d : dict V) '(k, a) => dict_set d k (f k a)) items acc
  = acc ++ map (fun '(k, a) => (k, f k a)) items.
Proof.
  revert acc. induction items as [|[k a] items IH]; intros acc Hnd; simpl.
  - now rewrite app_nil_r.
  - simpl in Hnd. rewrite dict_set_fresh.
    + rewrite IH.
      * now rewrite <- app_assoc.
      * rewrite keys_app. simpl. rewrite <- app_assoc. exact Hnd.
    + apply NoDup_remove_2 in Hnd. intros I. apply Hnd.
      apply in_or_app. now left.
Qed.

Section SummaryFacts.
Context {R : Type} {num : Number R}.

Lemma summary_positions
    (holdings prices position_values target_allocations current_allocations : dict R)
    (total : R) :
  NoDup (keys target_allocations) ->
  positions (build_portfolio_summary holdings prices position_values
               target_allocations current_allocations total)
  = map (fun '(ticker, target_fraction) =>
           (ticker,
            {| shares := dict_get_default holdings ticker zero;
               price := dict_get_default prices ticker zero;
               value := dict_get_default position_values ticker zero;
               target := target_fraction;
               current := dict_get_default current_allocations ticker zero |}))
        target_allocations.
Proof.
  intros Hnd. unfold build_portfolio_summary. cbn [positions].
  now rewrite (fold_dict_set_fresh _ _
                 (fun ticker target_fraction =>
                    {| shares := dict_get_default holdings ticker zero;
                       price := dict_get_default prices ticker zero;
                       value := dict_get_default position_values ticker zero;
                       target := target_fraction;
                       current := dict_get_default current_allocations ticker zero |})).
Qed.

Lemma dict_get_map_values (A B : Type) (f : string -> A -> B) (d : dict A) k :
  dict_get (map (fun '(t, a) => (t, f t a)) d) k
  = match dict_get d k with
    | Some a => Some (f k a)
    | None => None
    end.
Proof.
  induction d as [|[t a] d IH]; simpl.
  - reflexivity.
  - destruct (String.eqb_spec k t) as [->|Hne]; [reflexivity | exact IH].
Qed.

(** In the summary the run hands to the notifier, the total is the sum over
    every holding that has a price, whether or not the ticker has a target,
    and every reported current fraction is the value of the position divided
    by that total; the positions are exactly the target tickers, in their
    order. *)
Lemma summary_reports_targets_only
    (DRIFT_THRESHOLD : R) (fetch : list string -> dict R)
    (send_email : list (@alert R) -> @summary R -> bool -> result unit)
    (holdings target_allocations : dict R) (warmup : bool)
    (alerts : list alert) (portfolio_summary : summary) (is_daily_summary : bool) :
  NoDup (keys holdings) ->
  NoDup (keys target_allocations) ->
  In (SendEmail alerts portfolio_summary is_daily_summary)
     (fst (main (ok holdings) (ok target_allocations) (ok warmup)
                DRIFT_THRESHOLD fetch send_email)) ->
  let prices := fetch (keys holdings) in
  let total := total_value portfolio_summary in
  total = py_sum (map (fun '(ticker, shares) =>
                         mul shares (dict_get_default prices ticker zero))
                      (filter (fun '(ticker, _) => dict_contains ticker prices)
                              holdings))
  /\ keys (positions portfolio_summary) = keys target_allocations
  /\ (forall ticker,
         dict_contains ticker target_allocations = false ->
         dict_get (positions portfolio_summary) ticker = None)
  /\ (forall ticker reported,
         dict_get (positions portfolio_summary) ticker = Some reported ->
         current reported =
         match dict_get holdings ticker, dict_get prices ticker with
         | Some shares, Some price =>
             if eqb total zero then zero else div (mul shares price) total
         | _, _ => zero
         end).
Proof.
  intros Hh Ht Hin prices total.
  destruct (main_unfold DRIFT_THRESHOLD fetch send_email
              holdings target_allocations warmup)
    as (tot & pv & allocs & Hcalc & Halloc & Hmain).
  rewrite Hmain in Hin. cbv zeta in Hin. fold prices in Hin, Hcalc.
  unfold calculate_portfolio_value in Hcalc.
  rewrite position_values_fold in Hcalc by exact Hh.
  cbn [app] in Hcalc. inversion Hcalc as [[Htot Epv]].
  rewrite Epv in Htot. symmetry in Htot.
  assert (Hpv := fun k => priced_lookup prices holdings k Hh).
  rewrite Epv in Hpv. rewrite <- Epv, priced_values in Htot.
  rewrite calculate_current_allocations_total in Halloc.
  inversion Halloc as [Hallocs]. clear Halloc.
  assert (Hs : portfolio_summary
               = build_portfolio_summary holdings prices pv target_allocations
                   allocs tot).
  { destruct (dict_is_empty prices).
    - cbn in Hin. destruct Hin as [E|[]]. discriminate.
    - destruct warmup.
      + cbn [fst] in Hin. repeat (destruct Hin as [E|Hin]; [try discriminate|]).
        * now inversion E.
        * contradiction.
      + destruct (check_drift allocs target_allocations DRIFT_THRESHOLD).
        * cbn [fst] in Hin.
          repeat (destruct Hin as [E|Hin]; [try discriminate|]). contradiction.
        * cbn [fst] in Hin.
          repeat (destruct Hin as [E|Hin]; [try discriminate|]).
          -- now inversion E.
          -- contradiction. }
  assert (Hpos := summary_positions holdings prices pv target_allocations
                    allocs tot Ht).
  rewrite <- Hs in Hpos.
  assert (Etot : total = tot) by (subst total; rewrite Hs; reflexivity).
  split; [now rewrite Etot|]. split; [|split].
  - rewrite Hpos. unfold keys. rewrite map_map. apply map_ext. now intros [t g].
  - intros k Hk. rewrite Hpos.
    rewrite (dict_get_map_values _ _
               (fun ticker target_fraction =>
                  {| shares := dict_get_default holdings ticker zero;
                     price := dict_get_default prices ticker zero;
                     value := dict_get_default pv ticker zero;
                     target := target_fraction;
                     current := dict_get_default allocs ticker zero |})).
    unfold dict_contains in Hk.
    destruct (dict_get target_allocations k); [discriminate | reflexivity].
  - intros k reported Hk. rewrite Hpos in Hk.
    rewrite (dict_get_map_values _ _
               (fun ticker target_fraction =>
                  {| shares := dict_get_default holdings ticker zero;
                     price := dict_get_default prices ticker zero;
                     value := dict_get_default pv ticker zero;
                     target := target_fraction;
                     current := dict_get_default allocs ticker zero |})) in Hk.
    destruct (dict_get target_allocations k) as [g|]; [|discriminate].
    inversion Hk; subst reported. cbn [current].
    unfold dict_get_default. rewrite <- Hallocs.
    rewrite (dict_get_map_values _ _
               (fun _ v => if eqb tot zero then zero else div v tot)).
    rewrite Hpv, Etot.
    destruct (dict_get holdings k); [|reflexivity].
    destruct (dict_get prices k); reflexivity.
Qed.
End SummaryFacts.

(** *** Untargeted holdings in exact arithmetic *)

Lemma fold_left_Qplus_acc (xs : list Q) (a : Q) :
  (fold_left Qplus xs a == a + fold_left Qplus xs 0)%Q.
Proof.
  revert a. induction xs as [|x xs IH]; intros a; simpl.
  - now rewrite Qplus_0_r.
  - rewrite IH. rewrite (IH (0 + x)%Q). ring.
Qed.

Lemma Qsum_cons (x : Q) (xs : list Q) :
  (fold_left Qplus (x :: xs) 0 == x + fold_left Qplus xs 0)%Q.
Proof. simpl. rewrite fold_left_Qplus_acc. ring. Qed.

Lemma Qsum_nonneg (xs : list Q) :
  Forall (fun x => 0 <= x)%Q xs -> (0 <= fold_left Qplus xs 0)%Q.
Proof.
  induction 1 as [|x xs Hx Hxs IH].
  - apply Qle_refl.
  - rewrite Qsum_cons. lra.
Qed.

Lemma Qsum_pos (xs : list Q) (x : Q) :
  Forall (fun x => 0 <= x)%Q xs -> In x xs -> (0 < x)%Q ->
  (0 < fold_left Qplus xs 0)%Q.
Proof.
  induction 1 as [|y xs Hy Hxs IH]; intros Hin Hx.
  - contradiction.
  - rewrite Qsum_cons. destruct Hin as [->|Hin].
    + pose proof (Qsum_nonneg xs Hxs). lra.
    + pose proof (IH Hin Hx). lra.
Qed.

Lemma Qsum_split (A : Type) (h : A -> Q) (p : A -> bool) (l : list A) :
  (fold_left Qplus (map h l) 0
   == fold_left Qplus (map h (filter p l)) 0
      + fold_left Qplus (map h (filter (fun a => negb (p a)) l)) 0)%Q.
Proof.
  induction l as [|a l IH].
  - simpl. ring.
  - cbn [map filter]. rewrite Qsum_cons, IH.
    destruct (p a); cbn [negb map]; rewrite Qsum_cons; ring.
Qed.

Lemma filter_comm (A : Type) (p q : A -> bool) (l : list A) :
  filter p (filter q l) = filter q (filter p l).
Proof.
  induction l as [|a l IH]; simpl.
  - reflexivity.
  - destruct (p a) eqn:Hp, (q a) eqn:Hq; simpl; rewrite ?Hp, ?Hq, IH; reflexivity.
Qed.

Lemma NoDup_keys_filter (V : Type) (p : string * V -> bool) (d : dict V) :
  NoDup (keys d) -> NoDup (keys (filter p d)).
Proof.
  induction d as [|[k v] d IH]; simpl; intros Hnd.
  - constructor.
  - inversion Hnd as [|? ? Hnotin Hnd']; subst.
    destruct (p (k, v)); simpl; [|now apply IH].
    constructor; [|now apply IH].
    intros Hin. apply Hnotin. unfold keys in *.
    apply in_map_iff in Hin as ([k' v'] & E & Hin). simpl in E. subst k'.
    apply filter_In in Hin as [Hin _].
    change k with (fst (k, v')). now apply in_map.
Qed.

Lemma Qdiv_le_antitone (v a b : Q) :
  (0 <= v -> 0 < b -> b <= a -> v / a <= v / b)%Q.
Proof.
  intros Hv Hb Hab.
  assert (Ha : (0 < a)%Q) by (eapply Qlt_le_trans; eassumption).
  apply Qle_shift_div_r; [exact Ha|].
  assert (E : (v / b * a == v * a / b)%Q) by (field; intros E; rewrite E in Hb; discriminate).
  rewrite E. apply Qle_shift_div_l; [exact Hb|].
  rewrite (Qmult_comm v b), (Qmult_comm v a).
  now apply Qmult_le_compat_r.
Qed.

Lemma Qdiv_lt_antitone (v a b : Q) :
  (0 < v -> 0 < b -> b < a -> v / a < v / b)%Q.
Proof.
  intros Hv Hb Hab.
  assert (Ha : (0 < a)%Q) by (eapply Qlt_trans; eassumption).
  apply Qlt_shift_div_r; [exact Ha|].
  assert (E : (v / b * a == v * a / b)%Q) by (field; intros E; rewrite E in Hb; discriminate).
  rewrite E. apply Qlt_shift_div_l; [exact Hb|].
  now apply Qmult_lt_l.
Qed.

(** In exact arithmetic, with position values that are not negative, the
    total over all priced holdings is at least the total over the targeted
    ones, so every fraction [value / total] the run reports is at most the
    fraction the targeted holdings alone would give, and strictly less as
    soon as one untargeted holding has a positive value. *)
Lemma untargeted_holdings_reduce_fractions
    (holdings prices target_allocations : dict Q) :
  NoDup (keys holdings) ->
  Forall (fun v => 0 <= v)%Q
         (values (snd (calculate_portfolio_value holdings prices))) ->
  let total := fst (calculate_portfolio_value holdings prices) in
  let total_targeted :=
    fst (calculate_portfolio_value
           (filter (fun '(ticker, _) => dict_contains ticker target_allocations)
                   holdings)
           prices) in
  (total_targeted <= total)%Q
  /\ (forall value,
         0 <= value -> 0 < total_targeted ->
         value / total <= value / total_targeted)%Q
  /\ (forall ticker shares price value,
         dict_get holdings ticker = Some shares ->
         dict_get prices ticker = Some price ->
         dict_contains ticker target_allocations = false ->
         (0 < shares * price)%Q ->
         (0 < value)%Q -> (0 < total_targeted)%Q ->
         (value / total < value / total_targeted)%Q).
Proof.
  intros Hnd Hnonneg total total_targeted.
  set (p := fun item : string * Q =>
              let '(ticker, _) := item in
              dict_contains ticker target_allocations) in *.
  set (q := fun item : string * Q =>
              let '(ticker, _) := item in dict_contains ticker prices).
  set (h := fun item : string * Q =>
              let '(ticker, shares) := item in
              mul shares (dict_get_default prices ticker zero)).
  assert (Htotal : total = fold_left Qplus (map h (filter q holdings)) 0%Q).
  { subst total. unfold calculate_portfolio_value.
    rewrite position_values_fold by exact Hnd. cbn [app fst].
    rewrite priced_values. reflexivity. }
  assert (Htargeted : total_targeted
                      = fold_left Qplus (map h (filter p (filter q holdings))) 0%Q).
  { subst total_targeted. unfold calculate_portfolio_value.
    rewrite position_values_fold by (now apply NoDup_keys_filter).
    cbn [app fst]. rewrite priced_values. fold q. rewrite filter_comm.
    reflexivity. }
  assert (Hvalues : Forall (fun v => 0 <= v)%Q (map h (filter q holdings))).
  { unfold calculate_portfolio_value in Hnonneg.
    rewrite position_values_fold in Hnonneg by exact Hnd.
    cbn [app snd] in Hnonneg. now rewrite priced_values in Hnonneg. }
  set (rest := fold_left Qplus
                 (map h (filter (fun a => negb (p a)) (filter q holdings))) 0%Q).
  assert (Hsplit : (total == total_targeted + rest)%Q).
  { rewrite Htotal, Htargeted. apply Qsum_split. }
  assert (Hrest_values :
            Forall (fun v => 0 <= v)%Q
                   (map h (filter (fun a => negb (p a)) (filter q holdings)))).
  { apply Forall_forall. intros v Hv.
    apply in_map_iff in Hv as (a & <- & Ha). apply filter_In in Ha as [Ha _].
    rewrite Forall_forall in Hvalues. apply Hvalues. now apply in_map. }
  assert (Hrest : (0 <= rest)%Q) by now apply Qsum_nonneg.
  assert (Hle : (total_targeted <= total)%Q) by lra.
  split; [exact Hle|]. split.
  - intros value Hv Hpos. now apply Qdiv_le_antitone.
  - intros ticker shares price value Hh Hp Ht Hsp Hv Hpos.
    apply Qdiv_lt_antitone; [exact Hv | exact Hpos |].
    assert (Hin : In (shares * price)%Q
                     (map h (filter (fun a => negb (p a)) (filter q holdings)))).
    { apply in_map_iff. exists (ticker, shares). split.
      - unfold h, dict_get_default. now rewrite Hp.
      - apply filter_In. split.
        + apply filter_In. split; [now apply dict_get_in|].
          unfold q, dict_contains. now rewrite Hp.
        + unfold p. now rewrite Ht. }
    pose proof (Qsum_pos _ _ Hrest_values Hin Hsp) as Hrest_pos.
    fold rest in Hrest_pos. lra.
Qed.

(** C10, as amended. A ticker held without a target is counted in the total
    and is not a position. In every summary the run hands to the notifier
    the total is the sum over all holdings that have a price, each reported
    current fraction is the value of the position divided by that total
    (zero when the total is zero, or the ticker is not held or has no
    price), and the positions are exactly the target tickers, in their
    order. In exact arithmetic, with values that are not negative and a
    positive total of the targeted holdings, that total is at least the
    total of the targeted holdings alone, so every reported fraction is at
    most what the targeted holdings alone would give, and strictly less for
    a position of positive value when an untargeted holding has a positive
    value. (In binary64 the untargeted holding may leave the total and the
    fractions as they are: see [untargeted_holding_lost_to_rounding].) *)
Theorem untargeted_holdings_counted_not_reported :
  (forall (R : Type) (num : Number R) (DRIFT_THRESHOLD : R)
          (fetch : list string -> dict R)
          (send_email : list (@alert R) -> @summary R -> bool -> result unit)
          (holdings target_allocations : dict R) (warmup : bool)
          (alerts : list alert) (portfolio_summary : summary)
          (is_daily_summary : bool),
      NoDup (keys holdings) ->
      NoDup (keys target_allocations) ->
      In (SendEmail alerts portfolio_summary is_daily_summary)
         (fst (main (ok holdings) (ok target_allocations) (ok warmup)
                    DRIFT_THRESHOLD fetch send_email)) ->
      let prices := fetch (keys holdings) in
      let total := total_value portfolio_summary in
      total = py_sum (map (fun '(ticker, shares) =>
                             mul shares (dict_get_default prices ticker zero))
                          (filter (fun '(ticker, _) => dict_contains ticker prices)
                                  holdings))
      /\ keys (positions portfolio_summary) = keys target_allocations
      /\ (forall ticker,
             dict_contains ticker target_allocations = false ->
             dict_get (positions portfolio_summary) ticker = None)
      /\ (forall ticker reported,
             dict_get (positions portfolio_summary) ticker = Some reported ->
             current reported =
             match dict_get holdings ticker, dict_get prices ticker with
             | Some shares, Some price =>
                 if eqb total zero then zero else div (mul shares price) total
             | _, _ => zero
             end))
  /\ (forall (holdings prices target_allocations : dict Q),
         NoDup (keys holdings) ->
         Forall (fun v => 0 <= v)%Q
                (values (snd (calculate_portfolio_value holdings prices))) ->
         let total := fst (calculate_portfolio_value holdings prices) in
         let total_targeted :=
           fst (calculate_portfolio_value
                  (filter (fun '(ticker, _) =>
                             dict_contains ticker target_allocations)
                          holdings)
                  prices) in
         (total_targeted <= total)%Q
         /\ (forall value,
                0 <= value -> 0 < total_targeted ->
                value / total <= value / total_targeted)%Q
         /\ (forall ticker shares price value,
                dict_get holdings ticker = Some shares ->
                dict_get prices ticker = Some price ->
                dict_contains ticker target_allocations = false ->
                (0 < shares * price)%Q ->
                (0 < value)%Q -> (0 < total_targeted)%Q ->
                (value / total < value / total_targeted)%Q)).
Proof.
  split.
  - intros R num DRIFT_THRESHOLD fetch send_email holdings target_allocations
           warmup alerts portfolio_summary is_daily_summary Hh Ht Hin.
    exact (summary_reports_targets_only DRIFT_THRESHOLD fetch send_email
             holdings target_allocations warmup alerts portfolio_summary
             is_daily_summary Hh Ht Hin).
  - exact untargeted_holdings_reduce_fractions.
Qed.

(** C10, counterexample. With 1e16 shares of A and one share of B, both
    priced at 1, and a target for A alone, B is valued at 1 and added to the
    total, but 1e16 + 1 rounds to 1e16: the notifier receives the total 1e16
    and the fraction 1.0 for A, the very summary it receives when B is not
    held at all. The untargeted holding reduces no reported fraction. *)
Lemma untargeted_holding_lost_to_rounding :
  let prices := [("A", 1%float); ("B", 1%float)] in
  let target_allocations := [("A", 1%float)] in
  let run (holdings : dict float) :=
    main (ok holdings) (ok target_allocations) (ok true) 0.05%float
         (fun _ => prices) (fun _ _ _ => ok tt) in
  let reported :=
    {| total_value := 1e16%float;
       positions := [("A", {| shares := 1e16%float; price := 1%float;
                              value := 1e16%float; target := 1%float;
                              current := 1%float |})] |} in
  calculate_portfolio_value [("A", 1e16%float); ("B", 1%float)] prices
  = (1e16%float, [("A", 1e16%float); ("B", 1%float)])
  /\ calculate_portfolio_value [("A", 1e16%float)] prices
     = (1e16%float, [("A", 1e16%float)])
  /\ run [("A", 1e16%float); ("B", 1%float)]
     = ([FetchPrices ["A"; "B"]; CalculateValue; CalculateAllocations;
         CheckDrift; SendEmail [] reported true], ok tt)
  /\ run [("A", 1e16%float)]
     = ([FetchPrices ["A"]; CalculateValue; CalculateAllocations;
         CheckDrift; SendEmail [] reported true], ok tt).
Proof. cbv zeta. repeat split; vm_compute; reflexivity. Qed.

(** ** Configuration loader *)

Lemma get_env_variable_cases (environ : environment) (name : string)
    (required : bool) :
  get_env_variable environ name required
  = match dict_get environ name with
    | Some (String c s) => ok (String c s)
    | _ =>
        if required then
          raise (ValueError
                   ("Required environment variable '" ++ name ++ "' is not set"))
        else ok ""
    end.
Proof.
  unfold get_env_variable.
  destruct (dict_get environ name) as [[|c s]|]; destruct required; reflexivity.
Qed.

(** C9. A required variable set to the empty string is rejected with the
    same error as an absent one, and only those two cases are; so the three
    loaders raise that error, whatever the decoder or the date parser, and
    the empty string is never parsed. A variable that is not required yields
    the empty string in both cases. *)
Theorem empty_variable_is_missing (environ : environment) (name : string) :
  let missing :=
    ValueError ("Required environment variable '" ++ name ++ "' is not set") in
  let unset := dict_get environ name = None \/ dict_get environ name = Some "" in
  (get_env_variable environ name true = raise missing <-> unset)
  /\ (unset -> get_env_variable environ name false = ok "")
  /\ (forall json_loads,
         name = "PORTFOLIO_HOLDINGS" -> unset ->
         get_portfolio_holdings json_loads environ = raise missing)
  /\ (forall json_loads,
         name = "TARGET_ALLOCATIONS" -> unset ->
         get_target_allocations json_loads environ = raise missing)
  /\ (forall strptime_ymd,
         name = "START_DATE" -> unset ->
         get_start_date strptime_ymd environ = raise missing).
Proof.
  intros missing unset. subst missing unset.
  split; [|split; [|split; [|split]]].
  - rewrite get_env_variable_cases.
    destruct (dict_get environ name) as [[|c s]|]; split; intros H;
      try reflexivity; try discriminate; auto.
    destruct H as [H|H]; discriminate.
  - intros H. rewrite get_env_variable_cases.
    destruct (dict_get environ name) as [[|c s]|]; try reflexivity.
    destruct H as [H|H]; discriminate.
  - intros json_loads -> H. unfold get_portfolio_holdings.
    rewrite get_env_variable_cases.
    destruct (dict_get environ "PORTFOLIO_HOLDINGS") as [[|c s]|];
      try reflexivity.
    destruct H as [H|H]; discriminate.
  - intros json_loads -> H. unfold get_target_allocations.
    rewrite get_env_variable_cases.
    destruct (dict_get environ "TARGET_ALLOCATIONS") as [[|c s]|];
      try reflexivity.
    destruct H as [H|H]; discriminate.
  - intros strptime_ymd -> H. unfold get_start_date.
    rewrite get_env_variable_cases.
    destruct (dict_get environ "START_DATE") as [[|c s]|]; try reflexivity.
    destruct H as [H|H]; discriminate.
Qed.

Section LoaderFacts.
Variable json_loads : string -> result pyval.

Lemma py_sum_values_raises (vs : list pyval) (acc : result pyval) (e : exn) :
  (forall e', acc = raise e' -> e' = TypeError \/ e' = OverflowError) ->
  fold_left (fun acc v => (total <- acc ;; py_add total v)%result) vs acc
  = raise e ->
  e = TypeError \/ e = OverflowError.
Proof.
  revert acc. induction vs as [|v vs IH]; intros acc Hacc; simpl.
  - intros H. now apply Hacc.
  - apply IH. intros e' He'. destruct acc as [e0|total]; simpl in He'.
    + apply Hacc. exact He'.
    + unfold py_add in He'.
      destruct total, v; simpl in He'; try (inversion He'; auto; fail);
        unfold float_of_int in He';
        match type of He' with
        | context [PrimFloat.is_infinity ?x] =>
            destruct (PrimFloat.is_infinity x); simpl in He'; inversion He'; auto
        end.
Qed.

Lemma holdings_outcome (environ : environment) (c : ascii) (text : string) :
  dict_get environ "PORTFOLIO_HOLDINGS" = Some (String c text) ->
  get_portfolio_holdings json_loads environ
  = match json_loads (String c text) with
    | inl (JSONDecodeError e) =>
        raise (ValueError ("Invalid PORTFOLIO_HOLDINGS JSON: " ++ e))
    | inl e => raise e
    | inr (PDict entries) => ok (PDict entries)
    | inr _ => raise AttributeError
    end.
Proof.
  intros Henv. unfold get_portfolio_holdings.
  rewrite get_env_variable_cases, Henv. cbn [rbind].
  destruct (json_loads (String c text)) as [[]|[]]; reflexivity.
Qed.

Lemma targets_outcome (environ : environment) (c : ascii) (text : string) :
  dict_get environ "TARGET_ALLOCATIONS" = Some (String c text) ->
  get_target_allocations json_loads environ
  = match json_loads (String c text) with
    | inl (JSONDecodeError e) =>
        raise (ValueError ("Invalid TARGET_ALLOCATIONS JSON: " ++ e))
    | inl e => raise e
    | inr (PDict entries) =>
        match (total <- py_sum_values (values entries) ;;
               warn_unless_sums_to_one total)%result with
        | inl e => raise e
        | inr _ => ok (PDict entries)
        end
    | inr _ => raise AttributeError
    end.
Proof.
  intros Henv. unfold get_target_allocations.
  rewrite get_env_variable_cases, Henv. cbn [rbind].
  destruct (json_loads (String c text)) as [[]|[]]; try reflexivity.
  cbn [rbind py_values].
  destruct (py_sum_values (values entries)) as [e|total] eqn:Hsum; cbn [rbind].
  - assert (E : e = TypeError \/ e = OverflowError).
    { unfold py_sum_values in Hsum.
      eapply py_sum_values_raises; [|exact Hsum].
      intros e' He'. discriminate. }
    destruct E as [-> | ->]; reflexivity.
  - destruct (warn_unless_sums_to_one total) as [e|w] eqn:Hw; cbn [rbind].
    + unfold warn_unless_sums_to_one in Hw.
      destruct total; try (inversion Hw; reflexivity).
      * destruct (n =? 1)%Z; [discriminate|].
        unfold float_of_int in Hw.
        match type of Hw with
        | context [PrimFloat.is_infinity ?x] =>
            destruct (PrimFloat.is_infinity x); simpl in Hw; inversion Hw
        end. reflexivity.
      * destruct (_ && _); discriminate.
    + reflexivity.
Qed.
Lemma targets_decoded_outcome (environ : environment) (text : string) (v : pyval) :
  dict_get environ "TARGET_ALLOCATIONS" = Some text ->
  text <> "" ->
  json_loads text = ok v ->
  get_target_allocations json_loads environ = ok v
  \/ get_target_allocations json_loads environ = raise AttributeError
  \/ get_target_allocations json_loads environ = raise TypeError
  \/ get_target_allocations json_loads environ = raise OverflowError.
Proof.
  intros Henv Hne Hj. destruct text as [|c text]; [congruence|].
  rewrite (targets_outcome _ _ _ Henv), Hj.
  destruct v; auto.
  destruct (py_sum_values (values entries)) as [e|total] eqn:Hs; cbn [rbind].
  - unfold py_sum_values in Hs.
    apply py_sum_values_raises in Hs; [|discriminate].
    destruct Hs as [-> | ->]; auto.
  - unfold warn_unless_sums_to_one, float_of_int.
    destruct total; auto.
    + destruct (n =? 1)%Z; auto. cbn [rbind].
      match goal with
      | |- context [PrimFloat.is_infinity ?x] =>
          destruct (PrimFloat.is_infinity x); cbn; auto
      end.
    + destruct (_ && _); auto.
Qed.
End LoaderFacts.

(** C6, as amended. A loader raises its parse error when [json.loads]
    raises [JSONDecodeError] on the text of the variable, with the decoder's
    message appended, and only then (or when the decoder itself raises a
    [ValueError] of that very text, which is then raised as it is). Every
    other exception of [json.loads] is not caught and is raised unchanged.
    Text that decodes is never a parse error, whatever its shape: the
    holdings loader returns any decoded object unchanged, without looking at
    its values, and raises [AttributeError] on any other value; the target
    loader returns the decoded value or raises [AttributeError],
    [TypeError] or [OverflowError]. No assumption is made on the decoder. *)
Theorem parse_error_iff_invalid_json
    (json_loads : string -> result pyval) (environ : environment) :
  (forall msg,
      get_portfolio_holdings json_loads environ
      = raise (ValueError ("Invalid PORTFOLIO_HOLDINGS JSON: " ++ msg))
      <-> exists text,
            dict_get environ "PORTFOLIO_HOLDINGS" = Some text
            /\ text <> ""
            /\ (json_loads text = raise (JSONDecodeError msg)
                \/ json_loads text
                   = raise (ValueError
                              ("Invalid PORTFOLIO_HOLDINGS JSON: " ++ msg))))
  /\ (forall msg,
         get_target_allocations json_loads environ
         = raise (ValueError ("Invalid TARGET_ALLOCATIONS JSON: " ++ msg))
         <-> exists text,
               dict_get environ "TARGET_ALLOCATIONS" = Some text
               /\ text <> ""
               /\ (json_loads text = raise (JSONDecodeError msg)
                   \/ json_loads text
                      = raise (ValueError
                                 ("Invalid TARGET_ALLOCATIONS JSON: " ++ msg))))
  /\ (forall text e,
         dict_get environ "PORTFOLIO_HOLDINGS" = Some text ->
         text <> "" ->
         json_loads text = raise e ->
         (forall msg, e <> JSONDecodeError msg) ->
         get_portfolio_holdings json_loads environ = raise e)
  /\ (forall text e,
         dict_get environ "TARGET_ALLOCATIONS" = Some text ->
         text <> "" ->
         json_loads text = raise e ->
         (forall msg, e <> JSONDecodeError msg) ->
         get_target_allocations json_loads environ = raise e)
  /\ (forall text v,
         dict_get environ "PORTFOLIO_HOLDINGS" = Some text ->
         text <> "" ->
         json_loads text = ok v ->
         get_portfolio_holdings json_loads environ
         = match v with
           | PDict entries => ok (PDict entries)
           | _ => raise AttributeError
           end)
  /\ (forall text v,
         dict_get environ "TARGET_ALLOCATIONS" = Some text ->
         text <> "" ->
         json_loads text = ok v ->
         get_target_allocations json_loads environ = ok v
         \/ get_target_allocations json_loads environ = raise AttributeError
         \/ get_target_allocations json_loads environ = raise TypeError
         \/ get_target_allocations json_loads environ = raise OverflowError).
Proof.
  split; [|split; [|split; [|split; [|split]]]].
  - intros msg. split.
    + intros H.
      destruct (dict_get environ "PORTFOLIO_HOLDINGS") as [[|c text]|] eqn:Henv.
      * unfold get_portfolio_holdings in H.
        rewrite get_env_variable_cases, Henv in H. discriminate.
      * rewrite (holdings_outcome _ _ _ _ Henv) in H.
        exists (String c text). split; [reflexivity|]. split; [discriminate|].
        destruct (json_loads (String c text)) as [e|v] eqn:Hj.
        -- destruct e; try discriminate.
           ++ right. exact H.
           ++ left. simpl in H. now inversion H.
        -- destruct v; discriminate.
      * unfold get_portfolio_holdings in H.
        rewrite get_env_variable_cases, Henv in H. discriminate.
    + intros (text & Henv & Hne & [Hj|Hj]);
        (destruct text as [|c text]; [congruence|]);
        rewrite (holdings_outcome _ _ _ _ Henv), Hj; reflexivity.
  - intros msg. split.
    + intros H.
      destruct (dict_get environ "TARGET_ALLOCATIONS") as [[|c text]|] eqn:Henv.
      * unfold get_target_allocations in H.
        rewrite get_env_variable_cases, Henv in H. discriminate.
      * exists (String c text). split; [reflexivity|]. split; [discriminate|].
        destruct (json_loads (String c text)) as [e|v] eqn:Hj.
        -- rewrite (targets_outcome _ _ _ _ Henv), Hj in H.
           destruct e; try discriminate.
           ++ right. exact H.
           ++ left. simpl in H. now inversion H.
        -- exfalso.
           destruct (targets_decoded_outcome json_loads environ _ v Henv
                       ltac:(discriminate) Hj) as [E|[E|[E|E]]];
             rewrite E in H; discriminate.
      * unfold get_target_allocations in H.
        rewrite get_env_variable_cases, Henv in H. discriminate.
    + intros (text & Henv & Hne & [Hj|Hj]);
        (destruct text as [|c text]; [congruence|]);
        rewrite (targets_outcome _ _ _ _ Henv), Hj; reflexivity.
  - intros text e Henv Hne Hj He. destruct text as [|c text]; [congruence|].
    rewrite (holdings_outcome _ _ _ _ Henv), Hj.
    destruct e; try reflexivity. now elim (He msg).
  - intros text e Henv Hne Hj He. destruct text as [|c text]; [congruence|].
    rewrite (targets_outcome _ _ _ _ Henv), Hj.
    destruct e; try reflexivity. now elim (He msg).
  - intros text v Henv Hne Hj. destruct text as [|c text]; [congruence|].
    rewrite (holdings_outcome _ _ _ _ Henv), Hj. now destruct v.
  - intros text v. apply targets_decoded_outcome.
Qed.

(** C6 on text that is not JSON. *)
Lemma parse_error_iff_invalid_json_witness :
  get_portfolio_holdings example_decoder [("PORTFOLIO_HOLDINGS", "oops")]
  = raise (ValueError
             "Invalid PORTFOLIO_HOLDINGS JSON: Expecting value: line 1 column 1 (char 0)").
Proof.
  apply (proj1 (parse_error_iff_invalid_json
                  example_decoder [("PORTFOLIO_HOLDINGS", "oops")])
               "Expecting value: line 1 column 1 (char 0)").
  exists "oops". split; [reflexivity|]. split; [discriminate|].
  left. reflexivity.
Defined.

(** An integer literal beyond the digit limit is JSON, and the decoder
    raises a plain [ValueError] on it: both loaders raise that error as it
    is, not their parse error. *)
Example digit_limit_error_is_raised_unchanged :
  get_portfolio_holdings limited_decoder
    [("PORTFOLIO_HOLDINGS", overlong_integer_text)]
  = raise (ValueError digit_limit_message)
  /\ get_target_allocations limited_decoder
       [("TARGET_ALLOCATIONS", overlong_integer_text)]
     = raise (ValueError digit_limit_message).
Proof. split; vm_compute; reflexivity. Qed.

(** C6, counterexample. With [PORTFOLIO_HOLDINGS] set to the text of an
    object whose value is a string, the holdings loader does not fail: it
    returns the object, and does so for every decoder that decodes the text
    to that object. The target loader raises [TypeError] on the same text,
    and the holdings loader raises [AttributeError] on the text of an array:
    neither is the parse error. *)
Lemma wrong_shape_is_not_a_parse_error :
  get_portfolio_holdings example_decoder
    [("PORTFOLIO_HOLDINGS", object_of_strings_text)]
  = ok (PDict [("A", PStr "x")])
  /\ get_target_allocations example_decoder
       [("TARGET_ALLOCATIONS", object_of_strings_text)]
     = raise TypeError
  /\ get_portfolio_holdings example_decoder [("PORTFOLIO_HOLDINGS", "[1, 2]")]
     = raise AttributeError
  /\ (forall (json_loads : string -> result pyval) (text : string),
         text <> "" ->
         json_loads text = ok (PDict [("A", PStr "x")]) ->
         get_portfolio_holdings json_loads [("PORTFOLIO_HOLDINGS", text)]
         = ok (PDict [("A", PStr "x")])).
Proof.
  repeat split.
  intros json_loads text Hne Hj. destruct text as [|c text]; [congruence|].
  rewrite (holdings_outcome json_loads _ c text) by reflexivity.
  now rewrite Hj.
Qed.

(** ** Price fetcher: the bulk attempt *)

Lemma iloc_last_Some (series : list float) (x : float) :
  iloc_last series = Some x <-> exists earlier, series = earlier ++ [x].
Proof.
  unfold iloc_last. split.
  - intros H. destruct (rev series) as [|y kept] eqn:E; [discriminate|].
    inversion H; subst y. exists (rev kept).
    rewrite <- (rev_involutive series), E. reflexivity.
  - intros [earlier ->]. now rewrite rev_app_distr.
Qed.

Lemma filter_app_inv (A : Type) (p : A -> bool) (l l1 l2 : list A) (x : A) :
  filter p l = l1 ++ x :: l2 ->
  exists a b, l = a ++ x :: b /\ p x = true /\ filter p b = l2.
Proof.
  revert l1. induction l as [|y l IH]; intros l1 H; simpl in H.
  - destruct l1; discriminate.
  - destruct (p y) eqn:Hy.
    + destruct l1 as [|z l1]; simpl in H; inversion H; subst.
      * exists [], l. auto.
      * destruct (IH _ H2) as (a & b & -> & Hx & Hb).
        exists (z :: a), b. auto.
    + destruct (IH _ H) as (a & b & -> & Hx & Hb).
      exists (y :: a), b. auto.
Qed.

Lemma filter_nil_Forall (A : Type) (p : A -> bool) (l : list A) :
  filter p l = [] <-> Forall (fun y => p y = false) l.
Proof.
  induction l as [|y l IH]; simpl.
  - split; constructor.
  - destruct (p y) eqn:Hy; split; intros H.
    + discriminate.
    + inversion H; congruence.
    + constructor; [exact Hy | now apply IH].
    + inversion H. now apply IH.
Qed.

(** [iloc_last (dropna column)] is the most recent close that is not
    missing: the entry after which every entry is [nan]. *)
Lemma last_non_missing (column : list float) (x : float) :
  iloc_last (dropna column) = Some x
  <-> exists earlier later,
        column = earlier ++ x :: later
        /\ PrimFloat.is_nan x = false
        /\ Forall (fun y => PrimFloat.is_nan y = true) later.
Proof.
  rewrite iloc_last_Some. unfold dropna. split.
  - intros [kept H]. apply filter_app_inv in H as (a & b & -> & Hx & Hb).
    exists a, b. split; [reflexivity|]. split.
    + now apply negb_true_iff in Hx.
    + apply filter_nil_Forall in Hb. eapply Forall_impl; [|exact Hb].
      intros y Hy. now apply negb_false_iff in Hy.
  - intros (earlier & later & -> & Hx & Hl).
    exists (filter (fun y => negb (PrimFloat.is_nan y)) earlier).
    rewrite filter_app. simpl. rewrite Hx. simpl. do 2 f_equal.
    apply filter_nil_Forall. eapply Forall_impl; [|exact Hl].
    intros y Hy. now rewrite Hy.
Qed.

Lemma bulk_multi_step_lookup (data : frame) (prices : dict float) (k t : string) :
  dict_get (bulk_multi_step data prices k) t
  = if String.eqb t k then
      match dict_get (Close data) t with
      | Some column =>
          match iloc_last (dropna column) with
          | Some x => Some x
          | None => dict_get prices t
          end
      | None => dict_get prices t
      end
    else dict_get prices t.
Proof.
  unfold bulk_multi_step. destruct (String.eqb_spec t k) as [->|Hne].
  - destruct (dict_get (Close data) k) as [column|]; [|reflexivity].
    destruct (iloc_last (dropna column)); [|reflexivity].
    apply dict_get_set_same.
  - destruct (dict_get (Close data) k) as [column|]; [|reflexivity].
    destruct (iloc_last (dropna column)); [|reflexivity].
    apply dict_get_set_other. congruence.
Qed.

(** With several tickers the loop records, for a requested ticker, the most
    recent close that is not missing, and nothing when there is none. *)
Lemma bulk_multi_lookup (data : frame) (tickers : list string)
    (prices : dict float) (t : string) :
  dict_get (fold_left (bulk_multi_step data) tickers prices) t
  = if existsb (String.eqb t) tickers then
      match dict_get (Close data) t with
      | Some column =>
          match iloc_last (dropna column) with
          | Some x => Some x
          | None => dict_get prices t
          end
      | None => dict_get prices t
      end
    else dict_get prices t.
Proof.
  revert prices. induction tickers as [|k tickers IH]; intros prices.
  - reflexivity.
  - cbn [fold_left existsb]. rewrite IH, bulk_multi_step_lookup.
    destruct (String.eqb t k), (existsb (String.eqb t) tickers); cbn [orb];
      try reflexivity.
    destruct (dict_get (Close data) t) as [column|]; [|reflexivity].
    now destruct (iloc_last (dropna column)).
Qed.

(** On the branch for several tickers the bulk attempt records the most
    recent close that is not missing, and leaves a ticker without one
    unresolved. *)
Lemma bulk_attempt_several (data : frame) (tickers : list string) (t : string) :
  block_empty (Close data) = false ->
  List.length tickers <> 1%nat ->
  In t tickers ->
  dict_get (bulk_attempt tickers (Downloaded data)) t
  = match dict_get (Close data) t with
    | Some column => iloc_last (dropna column)
    | None => None
    end.
Proof.
  intros Hne Hlen Hin. unfold bulk_attempt. rewrite Hne.
  assert (Hex : existsb (String.eqb t) tickers = true).
  { apply existsb_exists. exists t. split; [exact Hin | apply String.eqb_refl]. }
  destruct tickers as [|k [|k' tickers]]; [contradiction | simpl in Hlen; lia |].
  rewrite bulk_multi_lookup, Hex.
  destruct (dict_get (Close data) t) as [column|]; [|reflexivity].
  now destruct (iloc_last (dropna column)).
Qed.

(** On the branch for one ticker the bulk attempt records the last close of
    the column, missing or not. *)
Lemma bulk_attempt_single (label ticker : string) (column : list float) :
  dict_get (bulk_attempt [ticker]
              (Downloaded {| Close := [(label, column)] |})) ticker
  = iloc_last column.
Proof.
  unfold bulk_attempt, bulk_single, iloc_last. cbn [Close block_empty].
  destruct column as [|x column]; [reflexivity|].
  destruct (rev (x :: column)) as [|y kept] eqn:E.
  - apply (f_equal (@List.length float)) in E.
    rewrite length_rev in E. discriminate.
  - cbn [dict_set dict_get]. now rewrite String.eqb_refl.
Qed.

(** C5. The bulk attempt should record the most recent close that is not
    missing, also for a request of one ticker; on that branch the code
    records the last close as it is. When the most recent row is missing,
    the price recorded is [nan], not the close of 10 before it; the same
    column in a request for two tickers yields 10. A column of missing
    values alone is recorded as [nan] too, and the ticker counts as
    resolved: the per-ticker lookup is skipped. *)
Theorem bulk_single_keeps_missing_close :
  let column := [10%float; nan] in
  iloc_last (dropna column) = Some 10%float
  /\ bulk_attempt ["FXAIX"] (Downloaded {| Close := [("FXAIX", column)] |})
     = [("FXAIX", nan)]
  /\ bulk_attempt ["FXAIX"; "QQQM"]
       (Downloaded {| Close := [("FXAIX", column); ("QQQM", [20%float; 21%float])] |})
     = [("FXAIX", 10%float); ("QQQM", 21%float)]
  /\ bulk_attempt ["FXAIX"] (Downloaded {| Close := [("FXAIX", [nan; nan])] |})
     = [("FXAIX", nan)]
  /\ (forall float_of_str requests_get,
         fetch_current_prices float_of_str
           (fun _ => Downloaded {| Close := [("FXAIX", column)] |})
           requests_get ["FXAIX"]
         = [("FXAIX", nan)]).
Proof. repeat split; reflexivity. Qed.

(** ** Price fetcher: the per-ticker lookup *)

Section FallbackFacts.
Variable float_of_str : string -> option float.
Variable yf_download : list string -> download.
Variable requests_get : string -> response.


(** The loop over the missing tickers changes the entry of a ticker only
    by recording the price its own lookup extracted. *)
Lemma fallback_fold_lookup (missing : list string) (prices : dict float)
    (t : string) :
  dict_get (fold_left (fallback_step float_of_str requests_get) missing prices) t
  = if existsb (String.eqb t) missing then
      match direct_lookup float_of_str requests_get t with
      | inr (Some x) => Some x
      | _ => dict_get prices t
      end
    else dict_get prices t.
Proof.
  revert prices. induction missing as [|k missing IH]; intros prices.
  - reflexivity.
  - cbn [fold_left existsb]. rewrite IH.
    assert (Hstep : dict_get (fallback_step float_of_str requests_get prices k) t
                    = if String.eqb t k then
                        match direct_lookup float_of_str requests_get t with
                        | inr (Some x) => Some x
                        | _ => dict_get prices t
                        end
                      else dict_get prices t).
    { unfold fallback_step.
      destruct (String.eqb_spec t k) as [->|Hne].
      - destruct (direct_lookup float_of_str requests_get k) as [e|[x|]]; try reflexivity.
        apply dict_get_set_same.
      - destruct (direct_lookup float_of_str requests_get k) as [e|[x|]]; try reflexivity.
        apply dict_get_set_other. congruence. }
    rewrite Hstep.
    destruct (String.eqb t k), (existsb (String.eqb t) missing); cbn [orb];
      try reflexivity.
    now destruct (direct_lookup float_of_str requests_get t) as [e|[x|]].
Qed.

(** Where a price in the output of [fetch_current_prices] comes from. *)
Lemma fetch_current_prices_lookup (tickers : list string) (t : string) :
  dict_get (fetch_current_prices float_of_str yf_download requests_get tickers) t
  = match dict_get (bulk_attempt tickers (yf_download tickers)) t with
    | Some x => Some x
    | None =>
        if existsb (String.eqb t) tickers then
          match direct_lookup float_of_str requests_get t with
          | inr (Some x) => Some x
          | _ => None
          end
        else None
    end.
Proof.
  unfold fetch_current_prices. rewrite fallback_fold_lookup.
  generalize (bulk_attempt tickers (yf_download tickers)). intros prices.
  destruct (dict_get prices t) as [x|] eqn:Hp.
  - assert (Hex : existsb (String.eqb t)
                    (filter (fun t0 => negb (dict_contains t0 prices)) tickers)
                  = false).
    { apply not_true_is_false. intros H. apply existsb_exists in H.
      destruct H as (k & Hk & E). apply String.eqb_eq in E. subst k.
      apply filter_In in Hk. destruct Hk as [_ Hk].
      unfold dict_contains in Hk. now rewrite Hp in Hk. }
    now rewrite Hex.
  - assert (Hex : existsb (String.eqb t)
                    (filter (fun t0 => negb (dict_contains t0 prices)) tickers)
                  = existsb (String.eqb t) tickers).
    { induction tickers as [|k ks IH]; [reflexivity|]. simpl.
      destruct (String.eqb_spec t k) as [->|Hne].
      - unfold dict_contains. rewrite Hp. simpl. now rewrite String.eqb_refl.
      - destruct (negb (dict_contains k prices)); simpl.
        + destruct (String.eqb_spec t k); [contradiction|]. exact IH.
        + exact IH. }
    rewrite Hex.
    destruct (existsb (String.eqb t) tickers); [|reflexivity].
    now destruct (direct_lookup float_of_str requests_get t) as [e|[x|]].
Qed.

(** C8. The per-ticker lookup extracts a price exactly when the response has
    status 200 and metadata, and then the price is the
    [regularMarketPrice] field whenever that field carries a price (it is
    truthy and converts to [float]), and the [previousClose] field only when
    [regularMarketPrice] is falsy. A requested ticker that neither the bulk
    attempt nor this extraction resolved is absent from the output: no
    placeholder is recorded. *)
Theorem fallback_prefers_regular_market_price :
  (forall ticker x,
      direct_lookup float_of_str requests_get ticker = ok (Some x)
      <-> exists data chart result first meta regular,
            requests_get ticker = Response 200 (ok data)
            /\ py_get data "chart" (PDict []) = ok chart
            /\ py_get chart "result" (PList []) = ok result
            /\ py_truthy result = true
            /\ py_getitem0 result = ok first
            /\ py_get first "meta" (PDict []) = ok meta
            /\ py_get meta "regularMarketPrice" PNone = ok regular
            /\ ((py_truthy regular = true /\ py_float float_of_str regular = ok x)
                \/ (py_truthy regular = false
                    /\ exists previous,
                         py_get meta "previousClose" PNone = ok previous
                         /\ py_truthy previous = true
                         /\ py_float float_of_str previous = ok x)))
  /\ (forall tickers ticker,
         dict_get (fetch_current_prices float_of_str yf_download requests_get
                                        tickers) ticker
         = match dict_get (bulk_attempt tickers (yf_download tickers)) ticker with
           | Some x => Some x
           | None =>
               if existsb (String.eqb ticker) tickers then
                 match direct_lookup float_of_str requests_get ticker with
                 | inr (Some x) => Some x
                 | _ => None
                 end
               else None
           end).
Proof.
  split; [|apply fetch_current_prices_lookup].
  intros ticker x. unfold direct_lookup. split.
  - destruct (requests_get ticker) as [|status json]; [discriminate|].
    destruct (status =? 200)%Z eqn:Hs; [|discriminate].
    apply Z.eqb_eq in Hs. subst status.
    destruct json as [e|data]; [discriminate|]. cbn [rbind].
    destruct (py_get data "chart" (PDict [])) as [e|chart] eqn:Hc;
      [discriminate|]. cbn [rbind].
    destruct (py_get chart "result" (PList [])) as [e|result] eqn:Hr;
      [discriminate|]. cbn [rbind].
    destruct (py_truthy result) eqn:Ht; [|discriminate].
    destruct (py_getitem0 result) as [e|first] eqn:Hf; [discriminate|].
    cbn [rbind].
    destruct (py_get first "meta" (PDict [])) as [e|meta] eqn:Hm;
      [discriminate|]. cbn [rbind].
    destruct (py_get meta "regularMarketPrice" PNone) as [e|regular] eqn:Hreg;
      [discriminate|]. cbn [rbind].
    intros H. exists data, chart, result, first, meta, regular.
    repeat (split; [reflexivity || assumption|]).
    destruct (py_truthy regular) eqn:Htr; cbn [rbind] in H.
    + left. split; [reflexivity|].
      rewrite Htr in H.
      destruct (py_float float_of_str regular) as [e|y]; [discriminate|].
      cbn [rbind] in H. now inversion H.
    + right. split; [reflexivity|].
      destruct (py_get meta "previousClose" PNone) as [e|previous] eqn:Hprev;
        [discriminate|]. cbn [rbind] in H.
      exists previous. split; [reflexivity|].
      destruct (py_truthy previous); [|discriminate]. split; [reflexivity|].
      destruct (py_float float_of_str previous) as [e|y]; [discriminate|].
      cbn [rbind] in H. now inversion H.
  - intros (data & chart & result & first & meta & regular
            & Hresp & Hc & Hr & Ht & Hf & Hm & Hreg & Hprice).
    rewrite Hresp. cbn [Z.eqb Pos.eqb rbind].
    rewrite Hc. cbn [rbind]. rewrite Hr. cbn [rbind]. rewrite Ht, Hf.
    cbn [rbind]. rewrite Hm. cbn [rbind]. rewrite Hreg. cbn [rbind].
    destruct Hprice as [[Htr Hx] | [Htr (previous & Hprev & Htp & Hx)]];
      rewrite Htr; cbn [rbind].
    + now rewrite Htr, Hx.
    + rewrite Hprev. cbn [rbind]. now rewrite Htp, Hx.
Qed.
End FallbackFacts.

(** *** The lookup on concrete responses *)

(** A chart response whose metadata is [meta]. *)
Example chart_response_prices :
  let chart_response (meta : list (string * pyval)) :=
    Response 200
      (ok (PDict [("chart", PDict [("result", PList [PDict [("meta", PDict meta)]]);
                                   ("error", PNone)])])) in
  let lookup (r : response) :=
    direct_lookup (fun _ => None) (fun _ => r) "FXAIX" in
  lookup (chart_response [("regularMarketPrice", PFloat 189.84);
                          ("previousClose", PFloat 188.5)])
  = ok (Some 189.84%float)
  /\ lookup (chart_response [("regularMarketPrice", PNone);
                             ("previousClose", PFloat 188.5)])
     = ok (Some 188.5%float)
  /\ lookup (chart_response [("regularMarketPrice", PFloat 0);
                             ("previousClose", PInt 188)])
     = ok (Some 188%float)
  /\ lookup (chart_response [("symbol", PStr "FXAIX")]) = ok None
  /\ lookup (chart_response [("regularMarketPrice", PStr "n/a");
                             ("previousClose", PFloat 188.5)])
     = raise (ValueError "could not convert string to float: 'n/a'")
  /\ lookup (Response 404 (ok (PDict []))) = ok None
  /\ lookup (Response 200 (ok (PDict [("chart", PDict [("result", PNone)])])))
     = ok None
  /\ lookup RequestRaises = raise RequestException.
Proof. repeat split; reflexivity. Qed.

(** A ticker the bulk attempt misses and whose response has no price is
    absent from the output; the other ticker keeps the close of the bulk
    attempt and is not looked up again. *)
Example fetch_leaves_unresolved_ticker_out :
  fetch_current_prices
    (fun _ => None)
    (fun _ => Downloaded {| Close := [("A", [10%float; 11%float]);
                                      ("B", [nan; nan])] |})
    (fun _ => Response 200 (ok (PDict [("chart", PDict [("result", PList [])])])))
    ["A"; "B"]
  = [("A", 11%float)].
Proof. reflexivity. Qed.

(** *** The run on concrete inputs *)

(** C10 on holdings of A and B, one share each at a price of 1, with a
    target for A alone: the total is 2, A is the only position and its
    reported fraction is one half. *)
Lemma untargeted_holdings_counted_not_reported_witness :
  let holdings := [("A", 1%float); ("B", 1%float)] in
  let prices := [("A", 1%float); ("B", 1%float)] in
  let target_allocations := [("A", 1%float)] in
  let current_allocations := [("A", 0.5%float); ("B", 0.5%float)] in
  let portfolio_summary :=
    build_portfolio_summary holdings prices prices target_allocations
                            current_allocations 2%float in
  total_value portfolio_summary = 2%float
  /\ keys (positions portfolio_summary) = ["A"]
  /\ dict_get (positions portfolio_summary) "B" = None
  /\ option_map current (dict_get (positions portfolio_summary) "A")
     = Some 0.5%float.
Proof.
  cbv zeta.
  pose proof
    (proj1 untargeted_holdings_counted_not_reported float binary64
       0.05%float
       (fun _ => [("A", 1%float); ("B", 1%float)])
       (fun _ _ _ => ok tt)
       [("A", 1%float); ("B", 1%float)] [("A", 1%float)] true
       (check_drift [("A", 0.5%float); ("B", 0.5%float)] [("A", 1%float)]
                    0.05%float)
       (build_portfolio_summary
          [("A", 1%float); ("B", 1%float)] [("A", 1%float); ("B", 1%float)]
          [("A", 1%float); ("B", 1%float)] [("A", 1%float)]
          [("A", 0.5%float); ("B", 0.5%float)] 2%float)
       true) as H.
  cbv zeta in H.
  destruct H as (Htotal & Hkeys & Habsent & Hcurrent).
  - simpl. repeat constructor; simpl; intuition discriminate.
  - simpl. repeat constructor; simpl; intuition discriminate.
  - vm_compute. do 4 right. left. reflexivity.
  - split; [reflexivity|]. split; [exact Hkeys|].
    split; [apply Habsent; reflexivity|].
    destruct (dict_get _ "A") as [reported|] eqn:E; [|discriminate E].
    simpl. f_equal. rewrite (Hcurrent "A" reported E). reflexivity.
Defined.

(** With two tickers priced by the bulk attempt and a drift of ten points,
    the run after warm-up goes through every stage and calls the notifier
    once, without the daily override. *)
Example run_reports_drift :
  let fetch :=
    fetch_current_prices
      (fun _ => None)
      (fun _ => Downloaded {| Close := [("A", [1%float; 1%float]);
                                        ("B", [nan; 1%float])] |})
      (fun _ => RequestRaises) in
  let run :=
    main (ok [("A", 60%float); ("B", 40%float)])
         (ok [("A", 0.5%float); ("B", 0.5%float)])
         (ok false) 0.05%float fetch (fun _ _ _ => ok tt) in
  snd run = ok tt
  /\ map (fun ev =>
            match ev with
            | SendEmail alerts portfolio_summary is_daily_summary =>
                Some (map (fun a => (alert_ticker a, alert_direction a)) alerts,
                      total_value portfolio_summary,
                      keys (positions portfolio_summary),
                      is_daily_summary)
            | _ => None
            end) (fst run)
     = [None; None; None; None;
        Some ([("A", OVER); ("B", UNDER)], 100%float, ["A"; "B"], false)].
Proof. split; reflexivity. Qed.

(** When the download raises and every request fails, no price is resolved
    and the run stops after the fetch. *)
Example run_without_prices :
  main (ok [("A", 60%float); ("B", 40%float)])
       (ok [("A", 0.5%float); ("B", 0.5%float)])
       (ok true) 0.05%float
       (fetch_current_prices (fun _ => None) (fun _ => DownloadRaises)
                             (fun _ => RequestRaises))
       (fun _ _ _ => ok tt)
  = ([FetchPrices ["A"; "B"]], raise (ValueError "Could not fetch any prices")).
Proof. reflexivity. Qed.

(** A balanced portfolio raises no alert: in warm-up the notifier is called
    all the same, with the daily override; after warm-up it is not called. *)
Example run_without_drift :
  let run (warmup : bool) :=
    main (ok [("A", 50%float); ("B", 50%float)])
         (ok [("A", 0.5%float); ("B", 0.5%float)])
         (ok warmup) 0.05%float
         (fun _ => [("A", 1%float); ("B", 1%float)])
         (fun _ _ _ => ok tt) in
  let calls (trace : list (@event float)) :=
    map (fun ev =>
           match ev with
           | SendEmail alerts _ is_daily_summary =>
               Some (List.length alerts, is_daily_summary)
           | _ => None
           end) trace in
  calls (fst (run true)) = [None; None; None; None; Some (0%nat, true)]
  /\ fst (run false)
     = [FetchPrices ["A"; "B"]; CalculateValue; CalculateAllocations;
        CheckDrift; NoEmailSent].
Proof. split; reflexivity. Qed.

(** *** The theorems at concrete inputs *)

(** C3 on values of 3 and 1 with their total of 4, in exact arithmetic. *)
Lemma calculate_current_allocations_spec_witness :
  exists allocations,
    calculate_current_allocations [("A", 3%Q); ("B", 1%Q)] 4%Q = ok allocations
    /\ (py_sum (values allocations) == 1)%Q.
Proof.
  apply (proj2 calculate_current_allocations_spec [("A", 3%Q); ("B", 1%Q)] 4%Q);
    reflexivity.
Defined.

(** C4 on a fetch that resolves nothing. *)
Lemma no_prices_is_fatal_witness :
  main (ok [("A", 1%float)]) (ok [("A", 1%float)]) (ok true) 0.05%float
       (fun _ => []) (fun _ _ _ => ok tt)
  = ([FetchPrices ["A"]], raise (ValueError "Could not fetch any prices")).
Proof.
  apply (proj1 (no_prices_is_fatal 0.05%float (fun _ => []) (fun _ _ _ => ok tt)
                  [("A", 1%float)] [("A", 1%float)] true)).
  reflexivity.
Defined.


(** C8 on a response whose metadata holds both fields. *)
Lemma fallback_prefers_regular_market_price_witness :
  direct_lookup
    (fun _ => None)
    (fun _ =>
       Response 200
         (ok (PDict [("chart",
                      PDict [("result",
                              PList [PDict [("meta",
                                             PDict [("regularMarketPrice",
                                                     PFloat 189.84);
                                                    ("previousClose",
                                                     PFloat 188.5)])]])])])))
    "FXAIX"
  = ok (Some 189.84%float).
Proof.
  apply (proj1 (fallback_prefers_regular_market_price
                  (fun _ => None) (fun _ => DownloadRaises) _)).
  do 6 eexists. repeat (split; [reflexivity|]).
  left. split; reflexivity.
Defined.

(** C9 on a start date set to the empty string. *)
Lemma empty_variable_is_missing_witness :
  get_env_variable [("START_DATE", "")] "START_DATE" true
  = raise (ValueError "Required environment variable 'START_DATE' is not set")
  /\ get_start_date (fun _ => ok 0%Z) [("START_DATE", "")]
     = raise (ValueError
                "Required environment variable 'START_DATE' is not set").
Proof.
  destruct (empty_variable_is_missing [("START_DATE", "")] "START_DATE")
    as (Hreq & _ & _ & _ & Hdate).
  split.
  - apply Hreq. right. reflexivity.
  - apply Hdate; [reflexivity | right; reflexivity].
Defined.

(** * Further properties *)

(** ** The start date and the warm-up window *)

(** X1. [get_start_date] raises its format error exactly when [START_DATE]
    holds text that [strptime] rejects, with the parser's message appended;
    [is_warmup_period] raises exactly the errors of [get_start_date], and
    none of its own. *)
Theorem start_date_errors
    (strptime_ymd : string -> result datetime) (environ : environment) :
  (forall msg,
      get_start_date strptime_ymd environ
      = raise (ValueError
                 ("Invalid START_DATE format (expected YYYY-MM-DD): " ++ msg))
      <-> exists text,
            dict_get environ "START_DATE" = Some text
            /\ text <> ""
            /\ strptime_ymd text = raise (ValueError msg))
  /\ (forall now e,
         is_warmup_period strptime_ymd environ now = raise e
         <-> get_start_date strptime_ymd environ = raise e).
Proof.
  split.
  - intros msg. unfold get_start_date. rewrite get_env_variable_cases.
    destruct (dict_get environ "START_DATE") as [[|c text]|] eqn:Henv;
      cbn [rbind].
    + split; [discriminate|]. intros (text & E & Hne & _). congruence.
    + split.
      * intros H. exists (String c text). split; [reflexivity|].
        split; [discriminate|].
        destruct (strptime_ymd (String c text)) as [[]|d]; try discriminate.
        simpl in H. now inversion H.
      * intros (text' & E & _ & Hp). inversion E; subst text'.
        now rewrite Hp.
    + split; [discriminate|]. intros (text & E & _). discriminate.
  - intros now e. unfold is_warmup_period.
    destruct (get_start_date strptime_ymd environ) as [e'|d]; cbn [rbind].
    + split; intros H; inversion H; reflexivity.
    + split; discriminate.
Qed.

(** X2. With a start date that parses, the run is in warm-up exactly until
    fourteen days after it, to the microsecond; a start date in the future
    counts as warm-up. *)
Theorem warmup_window
    (strptime_ymd : string -> result datetime) (environ : environment)
    (now start_date : datetime) :
  get_start_date strptime_ymd environ = ok start_date ->
  is_warmup_period strptime_ymd environ now
  = ok (now <? start_date + 14 * microseconds_per_day)%Z
  /\ ((now < start_date)%Z ->
      is_warmup_period strptime_ymd environ now = ok true).
Proof.
  intros Hstart. unfold is_warmup_period. rewrite Hstart. cbn [rbind].
  assert (E : (timedelta_days (now - start_date) <? WARMUP_PERIOD_DAYS)%Z
              = (now <? start_date + 14 * microseconds_per_day)%Z).
  { unfold WARMUP_PERIOD_DAYS.
    destruct (Z.ltb_spec (timedelta_days (now - start_date)) 14) as [H|H];
      destruct (Z.ltb_spec now (start_date + 14 * microseconds_per_day))
        as [H'|H']; try reflexivity; exfalso.
    - apply timedelta_days_lt in H. lia.
    - assert (timedelta_days (now - start_date) < 14)%Z
        by (apply timedelta_days_lt; lia).
      lia. }
  rewrite E. split; [reflexivity|].
  intros Hlt. f_equal. apply Z.ltb_lt. unfold microseconds_per_day. lia.
Qed.

Lemma warmup_window_witness :
  is_warmup_period (fun _ => ok 1000%Z) [("START_DATE", "2026-02-13")] 0%Z
  = ok true.
Proof.
  apply (proj2 (warmup_window (fun _ => ok 1000%Z)
                  [("START_DATE", "2026-02-13")] 0%Z 1000%Z eq_refl)).
  reflexivity.
Defined.

(** ** Targets that do not sum to one, and the threshold *)

Lemma py_sum_floats (entries : list (string * pyval)) (acc : float) :
  Forall (fun item => exists x, snd item = PFloat x) entries ->
  exists total,
    fold_left (fun acc v => (total <- acc ;; py_add total v)%result)
              (values entries) (ok (PFloat acc))
    = ok (PFloat total).
Proof.
  intros H. revert acc. induction H as [|[k v] entries [x Hx] _ IH]; intros acc.
  - now exists acc.
  - simpl in Hx. subst v. cbn [values map snd fold_left rbind py_add].
    apply IH.
Qed.

(** X3. The sum check of [get_target_allocations] only warns: an object
    whose values are all floats is returned as it is, whatever they sum
    to. *)
Theorem targets_of_any_sum_are_accepted
    (json_loads : string -> result pyval) (environ : environment)
    (text : string) (entries : list (string * pyval)) :
  dict_get environ "TARGET_ALLOCATIONS" = Some text ->
  text <> "" ->
  json_loads text = ok (PDict entries) ->
  Forall (fun item => exists x, snd item = PFloat x) entries ->
  get_target_allocations json_loads environ = ok (PDict entries).
Proof.
  intros Henv Hne Hj Hfloats. destruct text as [|c text]; [congruence|].
  rewrite (targets_outcome _ _ _ _ Henv), Hj.
  destruct Hfloats as [|[k v] entries [x Hx] Hrest].
  - reflexivity.
  - simpl in Hx. subst v. unfold py_sum_values.
    cbn [values map snd fold_left rbind].
    change (py_add (PInt 0) (PFloat x)) with (ok (PFloat (0 + x)%float)).
    destruct (py_sum_floats entries (0 + x)%float Hrest) as [total Ht].
    unfold values in Ht. rewrite Ht.
    cbn [rbind warn_unless_sums_to_one].
    now destruct (_ && _).
Qed.

Lemma targets_of_any_sum_are_accepted_witness :
  get_target_allocations
    (fun _ => ok (PDict [("A", PFloat 0.2); ("B", PFloat 0.1)]))
    [("TARGET_ALLOCATIONS", "any text")]
  = ok (PDict [("A", PFloat 0.2); ("B", PFloat 0.1)]).
Proof.
  apply (targets_of_any_sum_are_accepted _ _ "any text").
  - reflexivity.
  - discriminate.
  - reflexivity.
  - repeat constructor; eexists; reflexivity.
Defined.

(** X4. [DRIFT_THRESHOLD] falls back to the text 0.05 only when the
    variable is absent. A variable that is set is parsed as it is, the empty
    string included: unlike the required variables, an empty
    [DRIFT_THRESHOLD] is not taken as unset, and raises when [float] rejects
    the empty string. *)
Theorem drift_threshold_default
    (float_of_str : string -> option float) (environ : environment) :
  (dict_get environ "DRIFT_THRESHOLD" = None ->
   load_drift_threshold float_of_str environ
   = py_float float_of_str (PStr "0.05"))
  /\ (forall text,
         dict_get environ "DRIFT_THRESHOLD" = Some text ->
         load_drift_threshold float_of_str environ
         = py_float float_of_str (PStr text))
  /\ (float_of_str "" = None ->
      dict_get environ "DRIFT_THRESHOLD" = Some "" ->
      load_drift_threshold float_of_str environ
      = raise (ValueError "could not convert string to float: ''")).
Proof.
  unfold load_drift_threshold, dict_get_default.
  split; [|split].
  - now intros ->.
  - now intros text ->.
  - intros Hf ->. cbn [py_float]. now rewrite Hf.
Qed.

(** ** What the fetch returns *)

Lemma keys_dict_set (V : Type) (d : dict V) (k : string) (v : V) :
  keys (dict_set d k v) = if dict_contains k d then keys d else keys d ++ [k].
Proof.
  destruct (dict_contains k d) eqn:E.
  - apply keys_dict_set_in. now apply dict_contains_true_iff.
  - rewrite dict_set_fresh.
    + now rewrite keys_app.
    + intros I. apply dict_contains_true_iff in I. congruence.
Qed.

(** A dict stays a dict, with keys among [allowed], when an allowed key is
    assigned. *)
Lemma dict_set_keeps_keys (V : Type) (allowed : list string) (d : dict V)
    (k : string) (v : V) :
  In k allowed ->
  NoDup (keys d) /\ incl (keys d) allowed ->
  NoDup (keys (dict_set d k v)) /\ incl (keys (dict_set d k v)) allowed.
Proof.
  intros Hk [Hnd Hincl]. rewrite keys_dict_set.
  destruct (dict_contains k d) eqn:E; [now split|]. split.
  - apply NoDup_app; [exact Hnd | repeat constructor; intros [] |].
    intros x Hx [<-|[]]. apply dict_contains_true_iff in Hx. congruence.
  - apply incl_app; [exact Hincl|]. intros x [<-|[]]. exact Hk.
Qed.

Lemma fold_keeps_keys (V : Type) (allowed : list string)
    (step : dict V -> string -> dict V) (items : list string) (d : dict V) :
  (forall d' k,
      In k items ->
      NoDup (keys d') /\ incl (keys d') allowed ->
      NoDup (keys (step d' k)) /\ incl (keys (step d' k)) allowed) ->
  NoDup (keys d) /\ incl (keys d) allowed ->
  NoDup (keys (fold_left step items d))
  /\ incl (keys (fold_left step items d)) allowed.
Proof.
  revert d. induction items as [|k items IH]; intros d Hstep Hd.
  - exact Hd.
  - cbn [fold_left]. apply IH.
    + intros d' k' Hk'. apply Hstep. now right.
    + apply Hstep; [now left | exact Hd].
Qed.

Lemma bulk_attempt_keys (tickers : list string) (downloaded : download) :
  NoDup (keys (bulk_attempt tickers downloaded))
  /\ incl (keys (bulk_attempt tickers downloaded)) tickers.
Proof.
  assert (Hnil : NoDup (keys (@nil (string * float)))
                 /\ incl (keys (@nil (string * float))) tickers).
  { split; [constructor | intros x []]. }
  unfold bulk_attempt. destruct downloaded as [|data]; [exact Hnil|].
  destruct (block_empty (Close data)); [exact Hnil|].
  assert (Hmulti : NoDup (keys (fold_left (bulk_multi_step data) tickers []))
                   /\ incl (keys (fold_left (bulk_multi_step data) tickers []))
                           tickers).
  { apply fold_keeps_keys; [|exact Hnil].
    intros d k Hk Hd. unfold bulk_multi_step.
    destruct (dict_get (Close data) k) as [column|]; [|exact Hd].
    destruct (iloc_last (dropna column)); [|exact Hd].
    now apply dict_set_keeps_keys. }
  destruct tickers as [|t [|t' tickers]]; try exact Hmulti.
  unfold bulk_single. destruct (block_empty (Close data)); [exact Hnil|].
  destruct (Close data) as [|[label column] [|other columns]]; try exact Hnil.
  destruct (iloc_last column); [|exact Hnil].
  apply dict_set_keeps_keys; [now left | exact Hnil].
Qed.

(** X5. The map [fetch_current_prices] returns is a dict whose keys are all
    requested tickers: no ticker twice, and none that was not asked for,
    whatever the download and the responses hold. *)
Theorem fetched_tickers_were_requested
    (float_of_str : string -> option float)
    (yf_download : list string -> download)
    (requests_get : string -> response) (tickers : list string) :
  let prices :=
    fetch_current_prices float_of_str yf_download requests_get tickers in
  NoDup (keys prices) /\ incl (keys prices) tickers.
Proof.
  unfold fetch_current_prices. apply fold_keeps_keys.
  - intros d k Hk Hd. apply filter_In in Hk as [Hk _]. unfold fallback_step.
    destruct (direct_lookup float_of_str requests_get k) as [e|[x|]];
      try exact Hd.
    now apply dict_set_keeps_keys.
  - apply bulk_attempt_keys.
Qed.

(** X6. With no holdings there is nothing to request and nothing is
    fetched: the run ends with the fatal error whatever the price sources,
    the targets, the warm-up and the notifier are. *)
Theorem empty_holdings_are_fatal
    (float_of_str : string -> option float)
    (yf_download : list string -> download)
    (requests_get : string -> response)
    (target_allocations : dict float) (warmup : bool) (DRIFT_THRESHOLD : float)
    (notify : list (@alert float) -> @summary float -> bool -> result unit) :
  main (ok []) (ok target_allocations) (ok warmup) DRIFT_THRESHOLD
       (fetch_current_prices float_of_str yf_download requests_get) notify
  = ([FetchPrices []], raise (ValueError "Could not fetch any prices")).
Proof.
  assert (Hfetch : fetch_current_prices float_of_str yf_download requests_get []
                   = []).
  { unfold fetch_current_prices, bulk_attempt.
    destruct (yf_download []) as [|data]; [reflexivity|].
    destruct (block_empty (Close data)); reflexivity. }
  unfold main. cbn [lift pbind emit keys map]. rewrite Hfetch. reflexivity.
Qed.

Lemma fold_left_ext_in (A B : Type) (f g : A -> B -> A) (l : list B) (a : A) :
  (forall a' x, In x l -> f a' x = g a' x) ->
  fold_left f l a = fold_left g l a.
Proof.
  revert a. induction l as [|x l IH]; intros a H.
  - reflexivity.
  - cbn [fold_left]. rewrite (H a x) by now left.
    apply IH. intros a' y Hy. apply H. now right.
Qed.

(** X7. A ticker the bulk attempt resolved is not looked up again: the
    output depends on the responses for the unresolved tickers only. Two
    sources of responses that agree on those tickers give the same
    prices. *)
Theorem resolved_tickers_are_not_looked_up
    (float_of_str : string -> option float)
    (yf_download : list string -> download)
    (requests_get requests_get' : string -> response)
    (tickers : list string) :
  (forall ticker,
      In ticker tickers ->
      dict_contains ticker (bulk_attempt tickers (yf_download tickers)) = false ->
      requests_get ticker = requests_get' ticker) ->
  fetch_current_prices float_of_str yf_download requests_get tickers
  = fetch_current_prices float_of_str yf_download requests_get' tickers.
Proof.
  intros Hagree. unfold fetch_current_prices.
  apply fold_left_ext_in. intros prices ticker Hin.
  apply filter_In in Hin as [Hin Hmissing].
  apply negb_true_iff in Hmissing.
  unfold fallback_step, direct_lookup.
  now rewrite (Hagree ticker Hin Hmissing).
Qed.

Lemma resolved_tickers_are_not_looked_up_witness :
  fetch_current_prices
    (fun _ => None)
    (fun _ => Downloaded {| Close := [("A", [10%float]); ("B", [nan])] |})
    (fun _ => RequestRaises) ["A"; "B"]
  = fetch_current_prices
      (fun _ => None)
      (fun _ => Downloaded {| Close := [("A", [10%float]); ("B", [nan])] |})
      (fun ticker =>
         if String.eqb ticker "A" then Response 200 (ok (PDict []))
         else RequestRaises)
      ["A"; "B"].
Proof.
  apply resolved_tickers_are_not_looked_up.
  intros ticker [<-|[<-|[]]] H.
  - discriminate H.
  - reflexivity.
Defined.

(** X8. A bulk attempt that fails does not end the fetch: when the download
    raises or returns an empty frame, each requested ticker gets the price
    its own lookup extracts, and is absent when the lookup extracts none. *)
Theorem failed_bulk_falls_back
    (float_of_str : string -> option float)
    (yf_download : list string -> download)
    (requests_get : string -> response)
    (tickers : list string) (ticker : string) :
  yf_download tickers = DownloadRaises
  \/ (exists data,
         yf_download tickers = Downloaded data
         /\ block_empty (Close data) = true) ->
  In ticker tickers ->
  dict_get (fetch_current_prices float_of_str yf_download requests_get tickers)
           ticker
  = match direct_lookup float_of_str requests_get ticker with
    | inr (Some x) => Some x
    | _ => None
    end.
Proof.
  intros Hbulk Hin.
  assert (E : bulk_attempt tickers (yf_download tickers) = []).
  { destruct Hbulk as [-> | (data & -> & Hempty)]; unfold bulk_attempt.
    - reflexivity.
    - now rewrite Hempty. }
  rewrite fetch_current_prices_lookup, E. cbn [dict_get].
  assert (Hex : existsb (String.eqb ticker) tickers = true).
  { apply existsb_exists. exists ticker. split; [exact Hin|].
    apply String.eqb_refl. }
  now rewrite Hex.
Qed.

Lemma failed_bulk_falls_back_witness :
  dict_get
    (fetch_current_prices
       (fun _ => None) (fun _ => DownloadRaises)
       (fun _ =>
          Response 200
            (ok (PDict [("chart",
                         PDict [("result",
                                 PList [PDict [("meta",
                                                PDict [("previousClose",
                                                        PFloat 188.5)])]])])])))
       ["FXAIX"])
    "FXAIX"
  = Some 188.5%float.
Proof.
  rewrite (failed_bulk_falls_back
             (fun _ => None) (fun _ => DownloadRaises) _ ["FXAIX"] "FXAIX").
  - reflexivity.
  - now left.
  - now left.
Defined.

(** ** Binary64: missing prices and the threshold *)

Lemma add_nan_l (x : float) : (nan + x)%float = nan.
Proof. apply Prim2SF_inj. rewrite add_spec. reflexivity. Qed.

Lemma add_nan_r (x : float) : (x + nan)%float = nan.
Proof.
  apply Prim2SF_inj. rewrite add_spec. simpl (Prim2SF nan).
  now destruct (Prim2SF x).
Qed.

Lemma mul_nan_r (x : float) : (x * nan)%float = nan.
Proof.
  apply Prim2SF_inj. rewrite mul_spec. simpl (Prim2SF nan).
  now destruct (Prim2SF x).
Qed.

Lemma div_nan_r (x : float) : (x / nan)%float = nan.
Proof.
  apply Prim2SF_inj. rewrite div_spec. simpl (Prim2SF nan).
  now destruct (Prim2SF x).
Qed.

Lemma sub_nan_l (x : float) : (nan - x)%float = nan.
Proof. apply Prim2SF_inj. rewrite sub_spec. reflexivity. Qed.

Lemma ltb_nan_r (x : float) : (x <? nan)%float = false.
Proof.
  rewrite ltb_spec. simpl (Prim2SF nan). unfold SFltb.
  now destruct (Prim2SF x).
Qed.

Lemma sum_from_nan (xs : list float) : fold_left PrimFloat.add xs nan = nan.
Proof.
  induction xs as [|x xs IH]; [reflexivity|].
  cbn [fold_left]. now rewrite add_nan_l.
Qed.

Lemma sum_with_nan (xs : list float) (acc : float) :
  In nan xs -> fold_left PrimFloat.add xs acc = nan.
Proof.
  revert acc. induction xs as [|x xs IH]; intros acc Hin.
  - contradiction.
  - cbn [fold_left]. destruct Hin as [->|Hin].
    + rewrite add_nan_r. apply sum_from_nan.
    + now apply IH.
Qed.

(** X9. A missing price silences the analyzer. When one held ticker is
    priced at [nan] (as the bulk attempt for one ticker can record it), the
    total is [nan], the fraction of every valued ticker is [nan], and
    [check_drift] raises no alert for any of them, whatever the targets and
    the threshold: alerts are left only for tickers without a value. *)
Theorem nan_price_silences_alerts
    (holdings prices target_allocations : dict float) (threshold : float) :
  NoDup (keys holdings) ->
  (exists ticker shares,
      dict_get holdings ticker = Some shares
      /\ dict_get prices ticker = Some nan) ->
  let '(total, position_values) := calculate_portfolio_value holdings prices in
  total = nan
  /\ exists current_allocations,
       calculate_current_allocations position_values total
       = ok current_allocations
       /\ (forall ticker,
              dict_contains ticker position_values = true ->
              dict_get current_allocations ticker = Some nan)
       /\ (forall a,
              In a (check_drift current_allocations target_allocations
                                threshold) ->
              dict_contains (alert_ticker a) position_values = false).
Proof.
  intros Hnd (t & s & Hh & Hp).
  unfold calculate_portfolio_value.
  rewrite position_values_fold by exact Hnd. cbn [app].
  set (pv := flat_map _ holdings).
  assert (Hlookup : forall k, dict_get pv k
                              = match dict_get holdings k, dict_get prices k with
                                | Some shares, Some price => Some (mul shares price)
                                | _, _ => None
                                end)
    by (intros k; now apply priced_lookup).
  assert (Htotal : py_sum (values pv) = nan).
  { unfold py_sum. cbn [add zero binary64]. apply sum_with_nan.
    assert (Hv : dict_get pv t = Some nan).
    { rewrite Hlookup, Hh, Hp. cbn [mul binary64]. now rewrite mul_nan_r. }
    apply dict_get_in in Hv. unfold values.
    change nan with (snd (t, nan)). now apply in_map. }
  rewrite Htotal. split; [reflexivity|].
  eexists. split; [apply calculate_current_allocations_total|].
  assert (Hfraction : forall k,
             dict_contains k pv = true ->
             dict_get (map (fun '(ticker, value) =>
                              (ticker,
                               if eqb nan zero then zero else div value nan))
                           pv) k
             = Some nan).
  { intros k Hk.
    rewrite (dict_get_map_values _ _
               (fun _ v => if eqb nan zero then zero else div v nan)).
    unfold dict_contains in Hk. destruct (dict_get pv k); [|discriminate].
    cbn [eqb zero div binary64].
    change (PrimFloat.eqb nan 0) with false. cbn iota.
    now rewrite div_nan_r. }
  split; [exact Hfraction|].
  intros a Ha.
  destruct (check_drift_alert_inv _ _ _ _ Ha) as (g & _ & Hexceeds & _).
  destruct (dict_contains (alert_ticker a) pv) eqn:Hc; [|reflexivity].
  unfold dict_get_default in Hexceeds.
  rewrite (Hfraction _ Hc) in Hexceeds.
  cbn [sub absolute ltb binary64] in Hexceeds.
  rewrite sub_nan_l in Hexceeds.
  change (abs nan) with nan in Hexceeds.
  rewrite ltb_nan_r in Hexceeds. discriminate.
Qed.

Lemma nan_price_silences_alerts_witness :
  let '(total, position_values) :=
    calculate_portfolio_value [("FXAIX", 100%float)] [("FXAIX", nan)] in
  total = nan
  /\ exists current_allocations,
       calculate_current_allocations position_values total
       = ok current_allocations
       /\ (forall ticker,
              dict_contains ticker position_values = true ->
              dict_get current_allocations ticker = Some nan)
       /\ (forall a,
              In a (check_drift current_allocations [("FXAIX", 1%float)]
                                0.05%float) ->
              dict_contains (alert_ticker a) position_values = false).
Proof.
  apply (nan_price_silences_alerts
           [("FXAIX", 100%float)] [("FXAIX", nan)] [("FXAIX", 1%float)]
           0.05%float).
  - simpl. repeat constructor. intros [].
  - exists "FXAIX", 100%float. split; reflexivity.
Defined.

(** The bulk attempt for one ticker whose most recent close is missing
    prices the ticker at [nan]; the run then reports no drift, where the
    close of 10 before it would have raised an alert. *)
Example run_with_missing_close_is_silent :
  let run (column : list float) :=
    main (ok [("FXAIX", 100%float)]) (ok [("FXAIX", 0.5%float)]) (ok false)
         0.05%float
         (fetch_current_prices
            (fun _ => None)
            (fun _ => Downloaded {| Close := [("FXAIX", column)] |})
            (fun _ => RequestRaises))
         (fun _ _ _ => ok tt) in
  fst (run [10%float; nan])
  = [FetchPrices ["FXAIX"]; CalculateValue; CalculateAllocations; CheckDrift;
     NoEmailSent]
  /\ List.length (fst (run [10%float; 10%float])) = 5%nat
  /\ match List.last (fst (run [10%float; 10%float])) NoEmailSent with
     | SendEmail alerts _ false =>
         map (fun a => (alert_ticker a, alert_direction a)) alerts
         = [("FXAIX", OVER)]
     | _ => False
     end.
Proof. repeat split; reflexivity. Qed.

Lemma SFcompare_le_lt_trans (a b c : spec_float) :
  SFcompare a b = Some Lt \/ SFcompare a b = Some Eq ->
  SFcompare b c = Some Lt ->
  SFcompare a c = Some Lt.
Proof.
  destruct a as [sa|sa| |sa ma ea], b as [sb|sb| |sb mb eb],
           c as [sc|sc| |sc mc ec];
    cbn [SFcompare];
    intros [Hab|Hab] Hbc; try discriminate;
    repeat match goal with
           | s : bool |- _ => destruct s
           end;
    try discriminate; try reflexivity;
    change (PosDef.Pos.compare_cont Eq ?x ?y) with (Pos.compare x y) in *;
    repeat match goal with
           | H : context [(?x ?= ?y)%Z] |- _ =>
               destruct (Z.compare_spec x y); try discriminate
           | H : context [(?x ?= ?y)%positive] |- _ =>
               destruct (Pos.compare_spec x y); try discriminate
           end;
    repeat match goal with
           | |- context [(?x ?= ?y)%Z] =>
               destruct (Z.compare_spec x y); try lia
           | |- context [(?x ?= ?y)%positive] =>
               destruct (Pos.compare_spec x y); try lia
           end;
    try reflexivity; try (simpl in *; congruence); try lia.
Qed.

Lemma leb_ltb_trans (x y z : float) :
  PrimFloat.leb x y = true -> PrimFloat.ltb y z = true ->
  PrimFloat.ltb x z = true.
Proof.
  rewrite leb_spec, !ltb_spec. unfold SFleb, SFltb. intros Hxy Hyz.
  rewrite (SFcompare_le_lt_trans (Prim2SF x) (Prim2SF y) (Prim2SF z)).
  - reflexivity.
  - destruct (SFcompare (Prim2SF x) (Prim2SF y)) as [[]|]; auto; discriminate.
  - destruct (SFcompare (Prim2SF y) (Prim2SF z)) as [[]|];
      try discriminate; reflexivity.
Qed.

(** X10. Raising the threshold never adds an alert: every alert
    [check_drift] raises at a threshold is raised, with the same record, at
    any threshold below or equal to it. *)
Theorem lower_threshold_keeps_alerts
    (current_allocations target_allocations : dict float)
    (lower higher : float) :
  PrimFloat.leb lower higher = true ->
  incl (check_drift current_allocations target_allocations higher)
       (check_drift current_allocations target_allocations lower).
Proof.
  intros Hle.
  induction target_allocations as [|[t g] targets IH]; intros a.
  - intros [].
  - rewrite !check_drift_cons. intros Ha.
    apply in_or_app. apply in_app_or in Ha as [Ha|Ha]; [left | right; auto].
    unfold check_drift_step in *.
    destruct (ltb higher _) eqn:Hh; [|contradiction].
    cbn [ltb binary64] in Hh.
    cbn [ltb binary64]. rewrite (leb_ltb_trans _ _ _ Hle Hh).
    exact Ha.
Qed.

Lemma lower_threshold_keeps_alerts_witness :
  incl (check_drift [("A", 0.6%float)] [("A", 0.5%float); ("B", 0.5%float)]
                    0.25%float)
       (check_drift [("A", 0.6%float)] [("A", 0.5%float); ("B", 0.5%float)]
                    0.05%float).
Proof. apply lower_threshold_keeps_alerts. reflexivity. Defined.

(** ** What the notifier is handed *)

Section ReportFacts.
Context {R : Type} {num : Number R}.
Variable DRIFT_THRESHOLD : R.
Variable fetch : list string -> dict R.
Variable notify : list (@alert R) -> @summary R -> bool -> result unit.

(** Every call of the notifier in the trace carries the alerts and the
    summary the run derived, and the warm-up flag. *)
Lemma sent_report (holdings target_allocations : dict R) (warmup : bool)
    (alerts : list alert) (portfolio_summary : summary)
    (is_daily_summary : bool) :
  In (SendEmail alerts portfolio_summary is_daily_summary)
     (fst (main (ok holdings) (ok target_allocations) (ok warmup)
                DRIFT_THRESHOLD fetch notify)) ->
  exists total position_values current_allocations,
    calculate_portfolio_value holdings (fetch (keys holdings))
    = (total, position_values)
    /\ calculate_current_allocations position_values total
       = ok current_allocations
    /\ alerts = check_drift current_allocations target_allocations
                            DRIFT_THRESHOLD
    /\ portfolio_summary
       = build_portfolio_summary holdings (fetch (keys holdings))
           position_values target_allocations current_allocations total
    /\ is_daily_summary = warmup.
Proof.
  intros Hin.
  destruct (main_unfold DRIFT_THRESHOLD fetch notify
              holdings target_allocations warmup)
    as (total & pv & allocs & Hcalc & Halloc & Hmain).
  rewrite Hmain in Hin. cbv zeta in Hin.
  exists total, pv, allocs. split; [exact Hcalc|]. split; [exact Halloc|].
  destruct (dict_is_empty (fetch (keys holdings))).
  - cbn in Hin. destruct Hin as [E|[]]. discriminate.
  - destruct warmup.
    + cbn [fst] in Hin. repeat (destruct Hin as [E|Hin]; [try discriminate|]).
      * inversion E. auto.
      * contradiction.
    + destruct (check_drift allocs target_allocations DRIFT_THRESHOLD)
        eqn:Halerts.
      * cbn [fst] in Hin.
        repeat (destruct Hin as [E|Hin]; [try discriminate|]). contradiction.
      * cbn [fst] in Hin.
        repeat (destruct Hin as [E|Hin]; [try discriminate|]).
        -- inversion E. auto.
        -- contradiction.
Qed.

Lemma check_drift_alert_fields (current_allocations targets : dict R)
    (threshold : R) (a : alert) :
  In a (check_drift current_allocations targets threshold) ->
  exists target_fraction,
    In (alert_ticker a, target_fraction) targets
    /\ let current_fraction :=
         dict_get_default current_allocations (alert_ticker a) zero in
       alert_target a = mul target_fraction hundred
       /\ alert_current a = mul current_fraction hundred
       /\ alert_drift a = mul (sub current_fraction target_fraction) hundred
       /\ ltb threshold (absolute (sub current_fraction target_fraction)) = true
       /\ alert_direction a =
          (if ltb zero (sub current_fraction target_fraction)
           then OVER else UNDER).
Proof.
  induction targets as [|[t g] targets IH].
  - intros [].
  - rewrite check_drift_cons. intros H. apply in_app_or in H as [H|H].
    + simpl in H. destruct (ltb threshold _) eqn:E; [|contradiction].
      destruct H as [<-|[]]. cbn [alert_ticker]. exists g.
      split; [now left|]. cbv zeta. cbn. auto.
    + destruct (IH H) as (g' & I & rest). exists g'.
      split; [now right | exact rest].
Qed.

(** X11. Every target ticker is a position of the summary the notifier
    receives, also when it is not held or has no price: the shares and the
    price default to zero, and the value is shares times price when both are
    known and zero otherwise. *)
Theorem every_target_is_reported
    (holdings target_allocations : dict R) (warmup : bool)
    (alerts : list alert) (portfolio_summary : summary)
    (is_daily_summary : bool) (ticker : string) (target_fraction : R) :
  NoDup (keys holdings) ->
  NoDup (keys target_allocations) ->
  In (SendEmail alerts portfolio_summary is_daily_summary)
     (fst (main (ok holdings) (ok target_allocations) (ok warmup)
                DRIFT_THRESHOLD fetch notify)) ->
  dict_get target_allocations ticker = Some target_fraction ->
  let prices := fetch (keys holdings) in
  exists reported,
    dict_get (positions portfolio_summary) ticker = Some reported
    /\ target reported = target_fraction
    /\ shares reported = dict_get_default holdings ticker zero
    /\ price reported = dict_get_default prices ticker zero
    /\ value reported =
       match dict_get holdings ticker, dict_get prices ticker with
       | Some held, Some quoted_price => mul held quoted_price
       | _, _ => zero
       end.
Proof.
  intros Hh Ht Hin Htarget prices.
  destruct (sent_report _ _ _ _ _ _ Hin)
    as (total & pv & allocs & Hcalc & _ & _ & -> & _).
  fold prices in Hcalc |- *.
  rewrite summary_positions by exact Ht.
  rewrite (dict_get_map_values _ _
             (fun ticker target_fraction =>
                {| shares := dict_get_default holdings ticker zero;
                   price := dict_get_default prices ticker zero;
                   value := dict_get_default pv ticker zero;
                   target := target_fraction;
                   current := dict_get_default allocs ticker zero |})).
  rewrite Htarget. eexists. split; [reflexivity|]. cbn [target shares price value].
  repeat (split; [reflexivity|]).
  unfold calculate_portfolio_value in Hcalc.
  rewrite position_values_fold in Hcalc by exact Hh.
  cbn [app] in Hcalc. inversion Hcalc as [[Etotal Epv]].
  unfold dict_get_default. rewrite priced_lookup by exact Hh.
  destruct (dict_get holdings ticker); [|reflexivity].
  now destruct (dict_get prices ticker).
Qed.

(** X12. Every alert the notifier receives is about a position of the
    summary it receives with it: the percentages of the alert are one
    hundred times the target and current fractions of that position, and
    its drift one hundred times their difference. *)
Theorem alerts_match_positions
    (holdings target_allocations : dict R) (warmup : bool)
    (alerts : list alert) (portfolio_summary : summary)
    (is_daily_summary : bool) (a : alert) :
  NoDup (keys target_allocations) ->
  In (SendEmail alerts portfolio_summary is_daily_summary)
     (fst (main (ok holdings) (ok target_allocations) (ok warmup)
                DRIFT_THRESHOLD fetch notify)) ->
  In a alerts ->
  exists reported,
    dict_get (positions portfolio_summary) (alert_ticker a) = Some reported
    /\ alert_target a = mul (target reported) hundred
    /\ alert_current a = mul (current reported) hundred
    /\ alert_drift a
       = mul (sub (current reported) (target reported)) hundred.
Proof.
  intros Ht Hin Ha.
  destruct (sent_report _ _ _ _ _ _ Hin)
    as (total & pv & allocs & _ & _ & -> & -> & _).
  destruct (check_drift_alert_fields _ _ _ _ Ha)
    as (g & Hg & Htarget & Hcurrent & Hdrift & _).
  apply in_dict_get in Hg; [|exact Ht].
  rewrite summary_positions by exact Ht.
  rewrite (dict_get_map_values _ _
             (fun ticker target_fraction =>
                {| shares := dict_get_default holdings ticker zero;
                   price := dict_get_default (fetch (keys holdings)) ticker zero;
                   value := dict_get_default pv ticker zero;
                   target := target_fraction;
                   current := dict_get_default allocs ticker zero |})).
  rewrite Hg. eexists. split; [reflexivity|]. cbn [target current]. auto.
Qed.

(** X13. The colours of the report agree with the alerts when the notifier
    uses the threshold of the analyzer: a row of the summary is white
    exactly when its ticker has no alert, and otherwise has the colour of
    the alert's row, red for [OVER] and green for [UNDER]. *)
Theorem row_colors_match_alerts
    (holdings target_allocations : dict R) (warmup : bool)
    (alerts : list alert) (portfolio_summary : summary)
    (is_daily_summary : bool) (ticker : string) (reported : position) :
  NoDup (keys target_allocations) ->
  In (SendEmail alerts portfolio_summary is_daily_summary)
     (fst (main (ok holdings) (ok target_allocations) (ok warmup)
                DRIFT_THRESHOLD fetch notify)) ->
  dict_get (positions portfolio_summary) ticker = Some reported ->
  (position_row_color DRIFT_THRESHOLD reported = "#ffffff"
   <-> ~ exists a, In a alerts /\ alert_ticker a = ticker)
  /\ (forall a,
         In a alerts -> alert_ticker a = ticker ->
         position_row_color DRIFT_THRESHOLD reported = alert_color a).
Proof.
  intros Ht Hin Hreported.
  destruct (sent_report _ _ _ _ _ _ Hin)
    as (total & pv & allocs & _ & _ & -> & -> & _).
  rewrite summary_positions in Hreported by exact Ht.
  rewrite (dict_get_map_values _ _
             (fun ticker target_fraction =>
                {| shares := dict_get_default holdings ticker zero;
                   price := dict_get_default (fetch (keys holdings)) ticker zero;
                   value := dict_get_default pv ticker zero;
                   target := target_fraction;
                   current := dict_get_default allocs ticker zero |}))
    in Hreported.
  destruct (dict_get target_allocations ticker) as [g|] eqn:Hg;
    [|discriminate].
  inversion Hreported; subst reported. clear Hreported.
  unfold position_row_color. cbn [current target].
  assert (Hinv : forall a,
             In a (check_drift allocs target_allocations DRIFT_THRESHOLD) ->
             alert_ticker a = ticker ->
             ltb DRIFT_THRESHOLD
                 (absolute (sub (dict_get_default allocs ticker zero) g)) = true
             /\ alert_direction a
                = (if ltb zero (sub (dict_get_default allocs ticker zero) g)
                   then OVER else UNDER)).
  { intros a Ha <-.
    destruct (check_drift_alert_inv _ _ _ _ Ha) as (g' & Hg' & He & Hd).
    apply in_dict_get in Hg'; [|exact Ht].
    rewrite Hg in Hg'. inversion Hg'; subst g'. now split. }
  split.
  - destruct (ltb DRIFT_THRESHOLD _) eqn:He.
    + split.
      * destruct (ltb zero _); discriminate.
      * intros Hnone. exfalso. apply Hnone.
        assert (I : In ticker
                       (map alert_ticker
                            (check_drift allocs target_allocations
                                         DRIFT_THRESHOLD))).
        { rewrite check_drift_tickers.
          change ticker with (fst (ticker, g)). apply in_map.
          apply filter_In. split; [now apply dict_get_in | exact He]. }
        apply in_map_iff in I as (a & Ea & Ia). now exists a.
    + split; [|reflexivity].
      intros _ (a & Ha & Ea). destruct (Hinv a Ha Ea) as [He' _]. congruence.
  - intros a Ha Ea. destruct (Hinv a Ha Ea) as [He Hd].
    rewrite He. unfold alert_color. rewrite Hd.
    now destruct (ltb zero _).
Qed.
End ReportFacts.

(** The three theorems above on holdings of A and B, one share each at a
    price of 1, with targets of one half for A and for C, which is not
    held: C is reported with zeros, alerted as [UNDER], and its row is
    green. *)
Lemma every_target_is_reported_witness :
  exists reported,
    dict_get
      (positions
         (build_portfolio_summary
            [("A", 1%float); ("B", 1%float)] [("A", 1%float); ("B", 1%float)]
            [("A", 1%float); ("B", 1%float)] [("A", 0.5%float); ("C", 0.5%float)]
            [("A", 0.5%float); ("B", 0.5%float)] 2%float))
      "C"
    = Some reported
    /\ target reported = 0.5%float
    /\ shares reported = 0%float
    /\ price reported = 0%float
    /\ value reported = 0%float.
Proof.
  assert (Hh : NoDup (keys [("A", 1%float); ("B", 1%float)])).
  { simpl. repeat constructor; simpl; intuition discriminate. }
  assert (Ht : NoDup (keys [("A", 0.5%float); ("C", 0.5%float)])).
  { simpl. repeat constructor; simpl; intuition discriminate. }
  assert (Hsent :
            In (SendEmail
                  (check_drift [("A", 0.5%float); ("B", 0.5%float)]
                               [("A", 0.5%float); ("C", 0.5%float)] 0.05%float)
                  (build_portfolio_summary
            [("A", 1%float); ("B", 1%float)] [("A", 1%float); ("B", 1%float)]
            [("A", 1%float); ("B", 1%float)]
            [("A", 0.5%float); ("C", 0.5%float)]
            [("A", 0.5%float); ("B", 0.5%float)] 2%float)
                  true)
               (fst (main (ok [("A", 1%float); ("B", 1%float)])
                          (ok [("A", 0.5%float); ("C", 0.5%float)]) (ok true)
                          0.05%float
                          (fun _ => [("A", 1%float); ("B", 1%float)])
                          (fun _ _ _ => ok tt)))).
  { vm_compute. do 4 right. left. reflexivity. }
  exact (every_target_is_reported
           0.05%float (fun _ => [("A", 1%float); ("B", 1%float)])
           (fun _ _ _ => ok tt) _ _ _ _ _ _ "C" 0.5%float
           Hh Ht Hsent eq_refl).
Defined.

Lemma alerts_match_positions_witness :
  let under_c :=
    {| alert_ticker := "C"; alert_target := 50%float;
       alert_current := 0%float; alert_drift := (-50)%float;
       alert_direction := UNDER |} in
  exists reported,
    dict_get
      (positions
         (build_portfolio_summary
            [("A", 1%float); ("B", 1%float)] [("A", 1%float); ("B", 1%float)]
            [("A", 1%float); ("B", 1%float)] [("A", 0.5%float); ("C", 0.5%float)]
            [("A", 0.5%float); ("B", 0.5%float)] 2%float))
      (alert_ticker under_c)
    = Some reported
    /\ alert_target under_c = mul (target reported) hundred
    /\ alert_current under_c = mul (current reported) hundred
    /\ alert_drift under_c
       = mul (sub (current reported) (target reported)) hundred.
Proof.
  assert (Hh : NoDup (keys [("A", 1%float); ("B", 1%float)])).
  { simpl. repeat constructor; simpl; intuition discriminate. }
  assert (Ht : NoDup (keys [("A", 0.5%float); ("C", 0.5%float)])).
  { simpl. repeat constructor; simpl; intuition discriminate. }
  assert (Hsent :
            In (SendEmail
                  (check_drift [("A", 0.5%float); ("B", 0.5%float)]
                               [("A", 0.5%float); ("C", 0.5%float)] 0.05%float)
                  (build_portfolio_summary
            [("A", 1%float); ("B", 1%float)] [("A", 1%float); ("B", 1%float)]
            [("A", 1%float); ("B", 1%float)]
            [("A", 0.5%float); ("C", 0.5%float)]
            [("A", 0.5%float); ("B", 0.5%float)] 2%float)
                  true)
               (fst (main (ok [("A", 1%float); ("B", 1%float)])
                          (ok [("A", 0.5%float); ("C", 0.5%float)]) (ok true)
                          0.05%float
                          (fun _ => [("A", 1%float); ("B", 1%float)])
                          (fun _ _ _ => ok tt)))).
  { vm_compute. do 4 right. left. reflexivity. }
  assert (Ha : In {| alert_ticker := "C"; alert_target := 50%float;
                     alert_current := 0%float; alert_drift := (-50)%float;
                     alert_direction := UNDER |}
                  (check_drift [("A", 0.5%float); ("B", 0.5%float)]
                               [("A", 0.5%float); ("C", 0.5%float)] 0.05%float)).
  { vm_compute. left. reflexivity. }
  exact (alerts_match_positions
           0.05%float (fun _ => [("A", 1%float); ("B", 1%float)])
           (fun _ _ _ => ok tt) _ _ _ _ _ _ _ Ht Hsent Ha).
Defined.

Lemma row_colors_match_alerts_witness :
  let reported :=
    {| shares := 0%float; price := 0%float; value := 0%float;
       target := 0.5%float; current := 0%float |} in
  let alerts :=
    check_drift [("A", 0.5%float); ("B", 0.5%float)]
                [("A", 0.5%float); ("C", 0.5%float)] 0.05%float in
  (position_row_color 0.05%float reported = "#ffffff"
   <-> ~ exists a, In a alerts /\ alert_ticker a = "C")
  /\ (forall a,
         In a alerts -> alert_ticker a = "C" ->
         position_row_color 0.05%float reported = alert_color a).
Proof.
  assert (Hh : NoDup (keys [("A", 1%float); ("B", 1%float)])).
  { simpl. repeat constructor; simpl; intuition discriminate. }
  assert (Ht : NoDup (keys [("A", 0.5%float); ("C", 0.5%float)])).
  { simpl. repeat constructor; simpl; intuition discriminate. }
  assert (Hsent :
            In (SendEmail
                  (check_drift [("A", 0.5%float); ("B", 0.5%float)]
                               [("A", 0.5%float); ("C", 0.5%float)] 0.05%float)
                  (build_portfolio_summary
            [("A", 1%float); ("B", 1%float)] [("A", 1%float); ("B", 1%float)]
            [("A", 1%float); ("B", 1%float)]
            [("A", 0.5%float); ("C", 0.5%float)]
            [("A", 0.5%float); ("B", 0.5%float)] 2%float)
                  true)
               (fst (main (ok [("A", 1%float); ("B", 1%float)])
                          (ok [("A", 0.5%float); ("C", 0.5%float)]) (ok true)
                          0.05%float
                          (fun _ => [("A", 1%float); ("B", 1%float)])
                          (fun _ _ _ => ok tt)))).
  { vm_compute. do 4 right. left. reflexivity. }
  exact (row_colors_match_alerts
           0.05%float (fun _ => [("A", 1%float); ("B", 1%float)])
           (fun _ _ _ => ok tt) _ _ _ _ _ _ "C" _ Ht Hsent eq_refl).
Defined.

(** ** The notifier *)

Section NotifierFacts.
Local Open Scope string_scope.
Context {R : Type} {num : Number R}.
Variable DRIFT_THRESHOLD : R.
Variable format : R -> string -> string.
Variable date_str : string.
Variable smtp : string -> string -> string -> string -> message -> result unit.

(** With both credentials set, [send_email] hands one message to the mail
    server and ends as the server does. *)
Lemma send_email_with_credentials (environ : environment)
    (ca cp : ascii) (address password : string)
    (alerts : list (@alert R)) (portfolio_summary : @summary R)
    (is_daily_summary : bool) :
  dict_get environ "EMAIL_ADDRESS" = Some (String ca address) ->
  dict_get environ "EMAIL_PASSWORD" = Some (String cp password) ->
  let sender := String ca address in
  let recipient :=
    match dict_get environ "RECIPIENT_EMAIL" with
    | Some (String c r) => String c r
    | _ => sender
    end in
  send_email DRIFT_THRESHOLD format date_str smtp environ alerts
             portfolio_summary is_daily_summary
  = smtp sender (String cp password) sender recipient
         (build_message DRIFT_THRESHOLD format date_str sender recipient
                        alerts portfolio_summary).
Proof.
  intros Ha Hp sender recipient. unfold send_email.
  rewrite !get_env_variable_cases, Ha, Hp. cbn [rbind].
  subst recipient.
  destruct (dict_get environ "RECIPIENT_EMAIL") as [[|c r]|]; reflexivity.
Qed.

(** X14. Without credentials nothing is handed to the mail server:
    [send_email] raises the missing-variable error for [EMAIL_ADDRESS], or
    for [EMAIL_PASSWORD] when the address is set, whatever the server would
    do, and whether the variable is absent or empty. *)
Theorem send_email_requires_credentials (environ : environment)
    (alerts : list (@alert R)) (portfolio_summary : @summary R)
    (is_daily_summary : bool) :
  let unset name :=
    dict_get environ name = None \/ dict_get environ name = Some "" in
  let missing name :=
    ValueError ("Required environment variable '" ++ name ++ "' is not set") in
  (unset "EMAIL_ADDRESS" ->
   send_email DRIFT_THRESHOLD format date_str smtp environ alerts
              portfolio_summary is_daily_summary
   = raise (missing "EMAIL_ADDRESS"))
  /\ (~ unset "EMAIL_ADDRESS" -> unset "EMAIL_PASSWORD" ->
      send_email DRIFT_THRESHOLD format date_str smtp environ alerts
                 portfolio_summary is_daily_summary
      = raise (missing "EMAIL_PASSWORD")).
Proof.
  intros unset missing. subst unset missing. cbv beta. unfold send_email.
  split.
  - intros H. rewrite get_env_variable_cases.
    destruct (dict_get environ "EMAIL_ADDRESS") as [[|c a]|]; try reflexivity.
    destruct H; discriminate.
  - intros Ha Hp. rewrite !get_env_variable_cases.
    destruct (dict_get environ "EMAIL_ADDRESS") as [[|c a]|];
      try (exfalso; apply Ha; auto; fail).
    cbn [rbind].
    destruct (dict_get environ "EMAIL_PASSWORD") as [[|c' p]|];
      try reflexivity.
    destruct Hp; discriminate.
Qed.

(** X15. With both credentials set, [send_email] ends exactly as the mail
    server does, so a delivery failure is raised unchanged. The message goes
    from [EMAIL_ADDRESS] to [RECIPIENT_EMAIL], or back to [EMAIL_ADDRESS]
    when no recipient is set or it is empty; its subject announces a
    rebalance exactly when there is an alert; and the daily flag changes
    nothing in it. *)
Theorem send_email_delivers (environ : environment)
    (address password : string)
    (alerts : list (@alert R)) (portfolio_summary : @summary R)
    (is_daily_summary : bool) :
  dict_get environ "EMAIL_ADDRESS" = Some address ->
  address <> "" ->
  dict_get environ "EMAIL_PASSWORD" = Some password ->
  password <> "" ->
  exists msg,
    send_email DRIFT_THRESHOLD format date_str smtp environ alerts
               portfolio_summary is_daily_summary
    = smtp address password address (To msg) msg
    /\ msg = build_message DRIFT_THRESHOLD format date_str address (To msg)
                           alerts portfolio_summary
    /\ From msg = address
    /\ To msg = match dict_get environ "RECIPIENT_EMAIL" with
                | None | Some "" => address
                | Some recipient => recipient
                end
    /\ Subject msg
       = match alerts with
         | [] => "✅ ALL GOOD - IRA Portfolio Status - " ++ date_str
         | _ :: _ =>
             "🚨 REBALANCE NEEDED - IRA Portfolio Drift Alert - " ++ date_str
         end.
Proof.
  intros Ha Hane Hp Hpne.
  destruct address as [|ca address]; [congruence|].
  destruct password as [|cp password]; [congruence|].
  rewrite (send_email_with_credentials environ ca cp address password
             alerts portfolio_summary is_daily_summary Ha Hp).
  cbv zeta.
  set (recipient := match dict_get environ "RECIPIENT_EMAIL" with
                    | Some (String c r) => String c r
                    | _ => String ca address
                    end).
  exists (build_message DRIFT_THRESHOLD format date_str (String ca address)
                        recipient alerts portfolio_summary).
  cbn [To From Subject build_message].
  split; [reflexivity|]. split; [reflexivity|]. split; [reflexivity|]. split.
  - subst recipient.
    now destruct (dict_get environ "RECIPIENT_EMAIL") as [[|c r]|].
  - now destruct alerts.
Qed.

End NotifierFacts.

Lemma send_email_requires_credentials_witness :
  send_email (num := binary64) 0.05%float (fun _ _ => "0.0"%string)
             "2025-01-01"
             (fun _ _ _ _ _ => ok tt)
             [("EMAIL_ADDRESS", "me@example.com"); ("EMAIL_PASSWORD", "")]%string
             [] (build_portfolio_summary [] [] [] [] [] 0%float) false
  = raise (ValueError
             "Required environment variable 'EMAIL_PASSWORD' is not set").
Proof.
  apply (proj2 (send_email_requires_credentials (num := binary64)
                  0.05%float (fun _ _ => "0.0"%string) "2025-01-01"
                  (fun _ _ _ _ _ => ok tt)
                  [("EMAIL_ADDRESS", "me@example.com");
                   ("EMAIL_PASSWORD", "")]%string
                  [] (build_portfolio_summary [] [] [] [] [] 0%float) false)).
  - intros [H|H]; vm_compute in H; discriminate.
  - right. reflexivity.
Defined.

Lemma send_email_delivers_witness :
  exists msg,
    send_email (num := binary64) 0.05%float (fun _ _ => "0.0"%string)
               "2025-01-01"
               (fun _ _ _ _ _ => raise SMTPException)
               [("EMAIL_ADDRESS", "me@example.com");
                ("EMAIL_PASSWORD", "secret")]%string
               [] (build_portfolio_summary [] [] [] [] [] 0%float) false
    = (fun _ _ _ _ _ => raise SMTPException)
        "me@example.com"%string "secret"%string "me@example.com"%string
        (To msg) msg
    /\ msg = build_message (num := binary64) 0.05%float
                           (fun _ _ => "0.0"%string) "2025-01-01"
                           "me@example.com" (To msg)
                           [] (build_portfolio_summary [] [] [] [] [] 0%float)
    /\ From msg = "me@example.com"%string
    /\ To msg = match dict_get
                        [("EMAIL_ADDRESS", "me@example.com");
                         ("EMAIL_PASSWORD", "secret")]%string
                        "RECIPIENT_EMAIL" with
                | None | Some ""%string => "me@example.com"%string
                | Some recipient => recipient
                end
    /\ Subject msg
       = ("✅ ALL GOOD - IRA Portfolio Status - " ++ "2025-01-01")%string.
Proof.
  apply (send_email_delivers (num := binary64) 0.05%float
           (fun _ _ => "0.0"%string) "2025-01-01"
           (fun _ _ _ _ _ => raise SMTPException)
           [("EMAIL_ADDRESS", "me@example.com");
            ("EMAIL_PASSWORD", "secret")]%string
           "me@example.com" "secret"
           [] (build_portfolio_summary [] [] [] [] [] 0%float) false).
  - reflexivity.
  - discriminate.
  - reflexivity.
  - discriminate.
Defined.

